(** * GNESTE: the spreadsheet-to-SQLite converter [convert_to_sqlite.py]

    A shallow embedding of the converter and the properties of its
    normalisation engine: the dimension registry (three dictionaries keyed by a
    natural key), the row normaliser ([DB.add_dataframe]), the fact collector
    ([DB.entries]) and the snapshot exporter ([DB.save_sqlite]). *)

From Stdlib Require Import ZArith QArith Qcanon String Ascii List Lia.
From stdpp Require Import base option list strings countable gmap fin_maps.

Local Open Scope string_scope.
Local Open Scope list_scope.

(** ** Python values held in cells and column labels

    A cell of a [pandas] frame read from a spreadsheet is a string, a number
    or the missing marker [nan].  Python compares [int] and [float] by value
    ([2020 == 2020.0], equal hashes), so one constructor over the canonical
    rationals stands for every finite number: Leibniz equality on [value] is
    Python's [==] on strings and numbers.  There is one [NaN], while
    Python has many [nan] objects, none equal to another, which a [dict]
    tells apart by identity: a lookup with the [nan] object that was stored
    finds it, a second blank cell of a column may come with a [nan] of its
    own and then takes an entry of its own.  So what is said here of two
    upserts at one key is said of keys that are not missing. *)
Inductive value : Type :=
  | NaN
  | Str (s : string)
  | Num (x : Qc).

#[global] Instance value_eq_dec : EqDecision value.
Proof. solve_decision. Defined.

#[global] Instance value_countable : Countable value.
Proof.
  refine (inj_countable'
    (fun v => match v with
              | NaN => inl tt
              | Str s => inr (inl s)
              | Num x => inr (inr x)
              end)
    (fun c => match c with
              | inl _ => NaN
              | inr (inl s) => Str s
              | inr (inr x) => Num x
              end) _).
  intros [| |]; reflexivity.
Defined.

(** The Python [int] [n] as a value. *)
Definition of_int (n : Z) : value := Num (Q2Qc (inject_Z n)).

(** [pd.isna] on a scalar. *)
Definition isna (v : value) : bool :=
  match v with
  | NaN => true
  | _ => false
  end.

(** [isinstance(x, (int, float))]: [nan] is a [float]. *)
Definition is_int_or_float (v : value) : bool :=
  match v with
  | Str _ => false
  | _ => true
  end.

(** ** Exceptions *)
Inductive exn : Type :=
  | Exception (msg : string)
  | KeyError (key : value)
  | ValueError (msg : string)
  | AttributeError (msg : string).

Definition result (A : Type) : Type := exn + A.

(** [int(x)] for [x] an [int] or a [float]: truncation towards zero; it
    raises on [nan] (and is only applied to numbers here). *)
Definition int (v : value) : result Z :=
  match v with
  | Num x => inr (Z.quot (Qnum (this x)) (Zpos (Qden (this x))))
  | NaN => inl (ValueError "cannot convert float NaN to integer")
  | Str _ => inl (ValueError "invalid literal for int()")
  end.

(** [str.endswith]. *)
Fixpoint endswith (s suffix : string) : bool :=
  String.eqb s suffix ||
  match s with
  | EmptyString => false
  | String _ s' => endswith s' suffix
  end.

(** ** The dataclasses *)

Module Country.
Record t : Type := Build
  { name : value; ISO2 : value; ISO3 : value; continent : value }.

Definition __init__ (name ISO2 ISO3 continent : value) : t :=
  {| name := name;
     ISO2 := if isna ISO2 then name else ISO2;
     ISO3 := if isna ISO3 then name else ISO3;
     continent := continent |}.

Definition key (self : t) : value := ISO3 self.
End Country.

Module Technology.
Record t : Type := Build
  { name : value; ID : value; category : value }.

Definition key (self : t) : value := name self.
End Technology.

Module Variable_.
Record t : Type := Build
  { name : value; short_name : value; unit : value }.

Definition key (self : t) : value := name self.
End Variable_.

Module Entry.
(** The three reference fields hold the dimension object while the fact is
    in memory and its key once rewritten for export
    ([Technology | str] and so on). *)
Record t : Type := Build
  { technology : Technology.t + value;
    country : Country.t + value;
    variable : Variable_.t + value;
    power : Qc;
    energy : Qc;
    source : value;
    notes : value;
    currency : value;
    year : Z;
    price : value;
    _key : string }.

Definition key (self : t) : string := _key self.
End Entry.

(** ** Frames and rows *)

(** A frame: its column labels and its rows of cells. *)
Record DataFrame : Type :=
  { columns : list value; data : list (list value) }.

(** A row as [iterrows] yields it: the cells indexed by the column labels. *)
Definition Series : Type := list (value * value).

Definition iterrows (df : DataFrame) : list Series :=
  map (fun cells => combine (columns df) cells) (data df).

(** [row[key]].  The readers rename repeated headers, so a label selects at
    most one cell. *)
Fixpoint getitem (row : Series) (key : value) : result value :=
  match row with
  | [] => inl (KeyError key)
  | (l, c) :: row' => if decide (l = key) then inr c else getitem row' key
  end.

(** ** The database object *)

Record DB : Type :=
  { countries : gmap value Country.t;
    technologies : gmap value Technology.t;
    variables : gmap value Variable_.t;
    entries : list Entry.t }.

(** [DB.__init__]. *)
Definition DB_init : DB :=
  {| countries := ∅; technologies := ∅; variables := ∅; entries := [] |}.

(** What [save_sqlite] hands to the storage engine. *)
Inductive table : Type :=
  | country_df (rows : list Country.t)
  | vars_df (rows : list Variable_.t)
  | tech_df (rows : list Technology.t)
  | entries_df (rows : list Entry.t).

Inductive io : Type :=
  | connect (file_name : string)
  | to_sql (name : string) (df : table)
  | close.

(** ** Methods: a state monad over [DB] with exceptions

    A method runs on the object and either returns or raises; what it did to
    the object before raising stays done. *)
Definition M (A : Type) : Type := DB -> result A * DB.

Definition ret {A} (a : A) : M A := fun db => (inr a, db).

Definition raise {A} (e : exn) : M A := fun db => (inl e, db).

Definition bind {A B} (m : M A) (k : A -> M B) : M B :=
  fun db =>
    match m db with
    | (inl e, db') => (inl e, db')
    | (inr a, db') => k a db'
    end.

Definition lift {A} (r : result A) : M A := fun db => (r, db).

Definition get : M DB := fun db => (inr db, db).

Definition modify (f : DB -> DB) : M unit := fun db => (inr tt, f db).

Notation "'let*' x ':=' m 'in' k" := (bind m (fun x => k))
  (at level 10, x name, m at level 100, k at level 200).
Notation "m >> k" := (bind m (fun _ => k))
  (at level 65, right associativity).

(** [for x in l: body]. *)
Fixpoint for_ {A} (l : list A) (body : A -> M unit) : M unit :=
  match l with
  | [] => ret tt
  | x :: l' => body x >> for_ l' body
  end.

(** A comprehension [[f(x) for x in l]] whose element expression may raise. *)
Fixpoint comprehension {A B} (f : A -> result B) (l : list A) : result (list B) :=
  match l with
  | [] => inr []
  | x :: l' =>
      match f x with
      | inl e => inl e
      | inr y =>
          match comprehension f l' with
          | inl e => inl e
          | inr ys => inr (y :: ys)
          end
      end
  end.

(** ** Sample frames *)

Definition sample_columns : list value :=
  [ Str "Technology"; Str "ID"; Str "Category"; Str "Country"; Str "ISO2";
    Str "ISO3"; Str "Continent"; Str "Variable"; Str "Code"; Str "Unit";
    Str "Source"; Str "Notes"; Str "Currency"; of_int 2020; of_int 2021 ].

(** One row, no ISO codes, a price for 2020 and none for 2021. *)
Definition testland_cells : list value :=
  [ Str "Solar"; Str "S1"; Str "Renewable"; Str "Testland"; NaN; NaN;
    Str "Europe"; Str "CAPEX"; Str "CX"; Str "USD/kW"; Str "IEA"; NaN;
    Str "USD"; Num (Q2Qc (5 # 1)); NaN ].

Definition testland : DataFrame :=
  {| columns := sample_columns; data := [testland_cells] |}.

(** One row with a price in both years. *)
Definition two_prices : DataFrame :=
  {| columns := sample_columns;
     data := [ [ Str "Solar"; Str "S1"; Str "Renewable"; Str "Testland"; NaN;
                 NaN; Str "Europe"; Str "CAPEX"; Str "CX"; Str "USD/kW";
                 Str "IEA"; NaN; Str "USD"; Num (Q2Qc (5 # 1));
                 Num (Q2Qc (6 # 1)) ] ] |}.

(** The cells of a second row: the technology of [testland_cells] under
    another category. *)
Definition recategorised_cells : list value :=
  [ Str "Solar"; Str "S2"; Str "Clean"; Str "Otherland"; Str "OL"; Str "OTL";
    Str "Asia"; Str "OPEX"; Str "OX"; Str "USD/kW"; Str "IEA"; NaN;
    Str "USD"; NaN; Num (Q2Qc (7 # 1)) ].

(** The Testland frame as the CSV reader yields it: every header is a
    string. *)
Definition testland_csv : DataFrame :=
  {| columns :=
       [ Str "Technology"; Str "ID"; Str "Category"; Str "Country";
         Str "ISO2"; Str "ISO3"; Str "Continent"; Str "Variable"; Str "Code";
         Str "Unit"; Str "Source"; Str "Notes"; Str "Currency"; Str "2020";
         Str "2021" ];
     data := [testland_cells] |}.

(** The Testland frame without its Unit column. *)
Definition testland_no_unit : DataFrame :=
  {| columns :=
       [ Str "Technology"; Str "ID"; Str "Category"; Str "Country";
         Str "ISO2"; Str "ISO3"; Str "Continent"; Str "Variable"; Str "Code";
         Str "Source"; Str "Notes"; Str "Currency"; of_int 2020; of_int 2021 ];
     data :=
       [ [ Str "Solar"; Str "S1"; Str "Renewable"; Str "Testland"; NaN; NaN;
           Str "Europe"; Str "CAPEX"; Str "CX"; Str "IEA"; NaN; Str "USD";
           Num (Q2Qc (5 # 1)); NaN ] ] |}.

(** The Testland frame without its Source column. *)
Definition testland_no_source : DataFrame :=
  {| columns :=
       [ Str "Technology"; Str "ID"; Str "Category"; Str "Country";
         Str "ISO2"; Str "ISO3"; Str "Continent"; Str "Variable"; Str "Code";
         Str "Unit"; Str "Notes"; Str "Currency"; of_int 2020; of_int 2021 ];
     data :=
       [ [ Str "Solar"; Str "S1"; Str "Renewable"; Str "Testland"; NaN; NaN;
           Str "Europe"; Str "CAPEX"; Str "CX"; Str "USD/kW"; NaN; Str "USD";
           Num (Q2Qc (5 # 1)); NaN ] ] |}.

(** A fact given a token of its own. *)
Definition custom_fact : Entry.t :=
  {| Entry.technology :=
       inl (Technology.Build (Str "Solar") (Str "S1") (Str "Renewable"));
     Entry.country :=
       inl (Country.Build (Str "Testland") (Str "TL") (Str "TLD")
                          (Str "Europe"));
     Entry.variable :=
       inl (Variable_.Build (Str "CAPEX") (Str "CX") (Str "USD/kW"));
     Entry.power := 0%Qc;
     Entry.energy := 0%Qc;
     Entry.source := Str "IEA";
     Entry.notes := NaN;
     Entry.currency := Str "USD";
     Entry.year := 2020;
     Entry.price := Num (Q2Qc (5 # 1));
     Entry._key := "custom" |}.

(** Readers and file systems for the examples. *)
Definition reads_testland (file_name : string) : result DataFrame :=
  inr testland.

Definition every_path (file_name : string) : bool := true.

Definition no_path (file_name : string) : bool := false.

(** ** The converter

    The surroundings of a run are fixed once: the token that [uuid4().hex]
    returned when the class [Entry] was created (the default of its [_key]
    field), the file system as [os.path.exists] sees it, and the two [pandas]
    readers. *)
Section Converter.

Variable uuid4_hex : string.
Variable path_exists : string -> bool.
Variable read_csv : string -> result DataFrame.
Variable read_excel : string -> result DataFrame.

(** The constructor of [Entry] as every call site uses it: [_key] is left
    to its default. *)
Definition Entry_init
    (technology : Technology.t + value) (country : Country.t + value)
    (variable : Variable_.t + value) (power energy : Qc)
    (source notes currency : value) (year : Z) (price : value) : Entry.t :=
  {| Entry.technology := technology;
     Entry.country := country;
     Entry.variable := variable;
     Entry.power := power;
     Entry.energy := energy;
     Entry.source := source;
     Entry.notes := notes;
     Entry.currency := currency;
     Entry.year := year;
     Entry.price := price;
     Entry._key := uuid4_hex |}.

Definition add_country (country : Country.t) : M unit :=
  modify (fun self =>
    {| countries := <[Country.key country := country]> (countries self);
       technologies := technologies self;
       variables := variables self;
       entries := entries self |}).

Definition add_technology (technology : Technology.t) : M unit :=
  modify (fun self =>
    {| countries := countries self;
       technologies := <[Technology.key technology := technology]> (technologies self);
       variables := variables self;
       entries := entries self |}).

Definition add_variable (variable : Variable_.t) : M unit :=
  modify (fun self =>
    {| countries := countries self;
       technologies := technologies self;
       variables := <[Variable_.key variable := variable]> (variables self);
       entries := entries self |}).

Definition add_entry (entry : Entry.t) : M unit :=
  modify (fun self =>
    {| countries := countries self;
       technologies := technologies self;
       variables := variables self;
       entries := entries self ++ [entry] |}).

(** The body of the inner loop of [add_dataframe], for one [year]. *)
Definition add_dataframe_year
    (row : Series) (tech : Technology.t) (country : Country.t)
    (var : Variable_.t) (year : Z) : M unit :=
  let* price := lift (getitem row (of_int year)) in
  if negb (isna price) then
    let* source := lift (getitem row (Str "Source")) in
    let* notes := lift (getitem row (Str "Notes")) in
    let* currency := lift (getitem row (Str "Currency")) in
    add_entry (Entry_init (inl tech) (inl country) (inl var) 0%Qc 0%Qc
                          source notes currency year price)
  else ret tt.

(** The body of the outer loop of [add_dataframe], for one [row]. *)
Definition add_dataframe_row (df_columns : list value) (row : Series) : M unit :=
  let* t_name := lift (getitem row (Str "Technology")) in
  let* t_ID := lift (getitem row (Str "ID")) in
  let* t_category := lift (getitem row (Str "Category")) in
  let tech := Technology.Build t_name t_ID t_category in
  let* c_name := lift (getitem row (Str "Country")) in
  let* c_ISO2 := lift (getitem row (Str "ISO2")) in
  let* c_ISO3 := lift (getitem row (Str "ISO3")) in
  let* c_continent := lift (getitem row (Str "Continent")) in
  let country := Country.__init__ c_name c_ISO2 c_ISO3 c_continent in
  let* v_name := lift (getitem row (Str "Variable")) in
  let* v_short_name := lift (getitem row (Str "Code")) in
  let* v_unit := lift (getitem row (Str "Unit")) in
  let var := Variable_.Build v_name v_short_name v_unit in
  add_technology tech >>
  add_country country >>
  add_variable var >>
  let* years := lift (comprehension int (filter (fun x => is_int_or_float x = true) df_columns)) in
  for_ years (add_dataframe_year row tech country var).

Definition add_dataframe (df : DataFrame) : M unit :=
  for_ (iterrows df) (add_dataframe_row (columns df)).

Definition add_file (file_name : string) : M unit :=
  if path_exists file_name then
    let* df :=
      if endswith file_name ".csv" then lift (read_csv file_name)
      else if endswith file_name ".xlsx" then lift (read_excel file_name)
      else raise (Exception "File type not supported") in
    add_dataframe df
  else raise (Exception "File not exist").

(** The element expression of the comprehension [entries2]: [.key()] on a
    reference that is no dimension object raises. *)
Definition entries2_item (e : Entry.t) : result Entry.t :=
  match Entry.technology e with
  | inr _ => inl (AttributeError "key")
  | inl technology =>
      match Entry.country e with
      | inr _ => inl (AttributeError "key")
      | inl country =>
          match Entry.variable e with
          | inr _ => inl (AttributeError "key")
          | inl variable =>
              inr (Entry_init (inr (Technology.key technology))
                              (inr (Country.key country))
                              (inr (Variable_.key variable))
                              (Entry.power e) (Entry.energy e)
                              (Entry.source e) (Entry.notes e)
                              (Entry.currency e) (Entry.year e)
                              (Entry.price e))
          end
      end
  end.

(** [pd.DataFrame.from_dict(d, orient='index')] written with
    [index=False]: one table row per dictionary value.  The order of the
    rows of the three dimension tables is not tracked. *)
Definition from_dict {V} (d : gmap value V) : list V :=
  (map_to_list d).*2.

(** [save_sqlite] returns the calls it makes on the storage engine.  What
    the engine does with them is not part of this development: it can refuse
    a call (a frame without rows, a table that is already there, a year
    beyond 64 bits), and the method then raises at that call. *)
Definition save_sqlite (file_name : string) : M (list io) :=
  let file_name :=
    if negb (endswith file_name ".sqlite") then String.append file_name ".sqlite"
    else file_name in
  let* self := get in
  let country := from_dict (countries self) in
  let vars := from_dict (variables self) in
  let tech := from_dict (technologies self) in
  let* entries2 := lift (comprehension entries2_item (entries self)) in
  ret [ connect file_name;
        to_sql "country" (country_df country);
        to_sql "vars" (vars_df vars);
        to_sql "tech" (tech_df tech);
        to_sql "entries" (entries_df entries2);
        close ].

(** The driver: every file in turn, then the export. *)
Definition convert (files : list string) (out : string) : M (list io) :=
  for_ files add_file >> save_sqlite out.

Definition files : list string :=
  [ "GNESTE_Battery_Storage.xlsx";
    "GNESTE_Coal_Power.xlsx";
    "GNESTE_Gas_Power.xlsx";
    "GNESTE_Hydro_Power.xlsx";
    "GNESTE_Nuclear_Power.xlsx";
    "GNESTE_Solar_Power.xlsx";
    "GNESTE_Wind_Power.xlsx" ].

Definition main : M (list io) := convert files "GNESTE.sqlite".

(** ** What the specification says a row and a frame contribute *)

(** The cell of [row] under [label], [nan] when there is no such column. *)
Definition cell (row : Series) (label : value) : value :=
  match getitem row label with
  | inr c => c
  | inl _ => NaN
  end.

(** The year that a numeric column header stands for. *)
Definition year_of (label : value) : Z :=
  match int label with
  | inr y => y
  | inl _ => 0%Z
  end.

Definition row_technology (row : Series) : Technology.t :=
  {| Technology.name := cell row (Str "Technology");
     Technology.ID := cell row (Str "ID");
     Technology.category := cell row (Str "Category") |}.

Definition row_country (row : Series) : Country.t :=
  Country.__init__ (cell row (Str "Country")) (cell row (Str "ISO2"))
                   (cell row (Str "ISO3")) (cell row (Str "Continent")).

Definition row_variable (row : Series) : Variable_.t :=
  let name := cell row (Str "Variable") in
  let short_name := cell row (Str "Code") in
  let unit := cell row (Str "Unit") in
  {| Variable_.name := name; Variable_.short_name := short_name; Variable_.unit := unit |}.

(** A year column of a row with a price in it. *)
Definition populated (lc : value * value) : bool :=
  is_int_or_float lc.1 && negb (isna lc.2).

(** K: the number of year cells of the row that hold a price. *)
Definition populated_year_cells (row : Series) : nat :=
  length (filter (fun lc => populated lc = true) row).

(** The fact of one populated year cell of a row. *)
Definition row_fact (row : Series) (lc : value * value) : Entry.t :=
  Entry_init (inl (row_technology row)) (inl (row_country row))
             (inl (row_variable row)) 0%Qc 0%Qc
             (cell row (Str "Source")) (cell row (Str "Notes"))
             (cell row (Str "Currency")) (year_of lc.1) lc.2.

(** The facts of a row: one per populated year cell, in column order. *)
Definition row_facts (row : Series) : list Entry.t :=
  map (row_fact row) (filter (fun lc => populated lc = true) row).

(** The facts of a frame: those of its rows, in row order. *)
Definition frame_facts (df : DataFrame) : list Entry.t :=
  concat (map row_facts (iterrows df)).

(** The frame that a supported file is read into. *)
Definition source_frame (file_name : string) : result DataFrame :=
  if endswith file_name ".csv" then read_csv file_name
  else read_excel file_name.

Definition file_facts (file_name : string) : list Entry.t :=
  match source_frame file_name with
  | inr df => frame_facts df
  | inl _ => []
  end.

(** One upsert per dimension and the facts of the row appended. *)
Definition row_effect (row : Series) (db : DB) : DB :=
  {| countries :=
       <[Country.key (row_country row) := row_country row]> (countries db);
     technologies :=
       <[Technology.key (row_technology row) := row_technology row]>
         (technologies db);
     variables :=
       <[Variable_.key (row_variable row) := row_variable row]> (variables db);
     entries := entries db ++ row_facts row |}.

(** ** Valid frames *)

Definition required_columns : list string :=
  [ "Technology"; "ID"; "Category"; "Country"; "ISO2"; "ISO3"; "Continent";
    "Variable"; "Code"; "Unit"; "Source"; "Notes"; "Currency" ].

(** A header is a string or a whole number (a year). *)
Definition header_ok (label : value) : bool :=
  match label with
  | Str _ => true
  | Num _ => bool_decide (of_int (year_of label) = label)
  | NaN => false
  end.

Definition valid_columns (cols : list value) : bool :=
  bool_decide (NoDup cols)
  && forallb header_ok cols
  && forallb (fun c => bool_decide (Str c ∈ cols)) required_columns.

(** A row of a frame with valid columns. *)
Definition valid_row (cols : list value) (row : Series) : bool :=
  valid_columns cols && bool_decide (row.*1 = cols).

Definition valid_frame (df : DataFrame) : bool :=
  valid_columns (columns df)
  && forallb (fun cells => Nat.eqb (length cells) (length (columns df))) (data df).

(** A fact as [add_dataframe] builds it: the references are objects. *)
Definition has_objects (e : Entry.t) : bool :=
  match Entry.technology e, Entry.country e, Entry.variable e with
  | inl _, inl _, inl _ => true
  | _, _, _ => false
  end.

(** What the export does to one fact. *)
Definition rewritten (e e2 : Entry.t) : Prop :=
  (exists t c v,
      Entry.technology e = inl t /\ Entry.country e = inl c /\
      Entry.variable e = inl v /\
      Entry.technology e2 = inr (Technology.key t) /\
      Entry.country e2 = inr (Country.key c) /\
      Entry.variable e2 = inr (Variable_.key v)) /\
  Entry.power e2 = Entry.power e /\
  Entry.energy e2 = Entry.energy e /\
  Entry.source e2 = Entry.source e /\
  Entry.notes e2 = Entry.notes e /\
  Entry.currency e2 = Entry.currency e /\
  Entry.year e2 = Entry.year e /\
  Entry.price e2 = Entry.price e.

(** The state after any sequence of [add_dataframe] calls on a new [DB],
    whether they returned or raised. *)
Definition ingest (dfs : list DataFrame) : DB :=
  foldl (fun db df => (add_dataframe df db).2) DB_init dfs.

(** ** Effects, invariants and the program logic *)

(** The state with one more fact. *)
Definition with_entries (db : DB) (new : list Entry.t) : DB :=
  {| countries := countries db;
     technologies := technologies db;
     variables := variables db;
     entries := entries db ++ new |}.

Definition frame_effect (df : DataFrame) (db : DB) : DB :=
  foldl (fun db row => row_effect row db) db (iterrows df).

(** A file that [add_file] can take in: it exists, has one of the two
    extensions, and the reader returns a valid frame. *)
Definition usable (file_name : string) : bool :=
  path_exists file_name
  && (endswith file_name ".csv" || endswith file_name ".xlsx")
  && match source_frame file_name with
     | inr df => valid_frame df
     | inl _ => false
     end.

Definition file_effect (file_name : string) (db : DB) : DB :=
  match source_frame file_name with
  | inr df => frame_effect df db
  | inl _ => db
  end.

(** [hoare I P m Q]: run on an object in [P], the method [m] returns [a]
    with the object in [Q a], or raises with the object in [I]. *)
Definition hoare {A} (I P : DB -> Prop) (m : M A) (Q : A -> DB -> Prop) : Prop :=
  forall db, P db ->
    match m db with
    | (inr a, db') => Q a db'
    | (inl _, db') => I db'
    end.

(** The references of a fact are objects whose keys are in the
    dictionaries. *)
Definition registered (db : DB) (e : Entry.t) : Prop :=
  exists t c v,
    Entry.technology e = inl t /\ Entry.country e = inl c /\
    Entry.variable e = inl v /\
    is_Some (technologies db !! Technology.key t) /\
    is_Some (countries db !! Country.key c) /\
    is_Some (variables db !! Variable_.key v).

Record DB_inv (db : DB) : Prop :=
  { inv_technologies :
      forall k t, technologies db !! k = Some t -> Technology.key t = k;
    inv_countries :
      forall k c, countries db !! k = Some c -> Country.key c = k;
    inv_variables :
      forall k v, variables db !! k = Some v -> Variable_.key v = k;
    inv_entries : Forall (registered db) (entries db);
    inv_keys : Forall (fun e => Entry._key e = uuid4_hex) (entries db) }.

(** The dictionaries of [db'] hold every key of those of [db]. *)
Definition grows (db db' : DB) : Prop :=
  (forall k, is_Some (technologies db !! k) -> is_Some (technologies db' !! k)) /\
  (forall k, is_Some (countries db !! k) -> is_Some (countries db' !! k)) /\
  (forall k, is_Some (variables db !! k) -> is_Some (variables db' !! k)).

(** The invariant inside the loop over the years of a row, whose three
    dimension objects are in the dictionaries. *)
Definition row_inv (t : Technology.t) (c : Country.t) (v : Variable_.t)
    (db : DB) : Prop :=
  DB_inv db /\
  is_Some (technologies db !! Technology.key t) /\
  is_Some (countries db !! Country.key c) /\
  is_Some (variables db !! Variable_.key v).

(** The name under which the artifact is created. *)
Definition destination (file_name : string) : string :=
  if endswith file_name ".sqlite" then file_name
  else String.append file_name ".sqlite".

(** ** Further notions for the methods *)

(** The ten columns that a row's three dimension objects are built from, in
    the order [add_dataframe] reads them. *)
Definition dimension_columns : list string :=
  [ "Technology"; "ID"; "Category"; "Country"; "ISO2"; "ISO3"; "Continent";
    "Variable"; "Code"; "Unit" ].

(** A fact as the loop of [add_dataframe] builds it. *)
Definition fact_ok (e : Entry.t) : Prop :=
  has_objects e = true /\
  Entry.power e = 0%Qc /\ Entry.energy e = 0%Qc /\
  isna (Entry.price e) = false /\
  Entry._key e = uuid4_hex.

(** [db] is [db0] with facts appended and keys added. *)
Definition extends (db0 db : DB) : Prop :=
  (exists new, entries db = entries db0 ++ new) /\ grows db0 db.

(** Upserts of the objects [xs], in order, into the dictionary [m]. *)
Definition upserts {V} (key : V -> value) (xs : list V) (m : gmap value V) :
    gmap value V :=
  foldl (fun m x => <[key x := x]> m) m xs.

(** The ten dimension columns are among the headers. *)
Definition dimensions_present (cols : list value) : bool :=
  forallb (fun c => bool_decide (Str c ∈ cols)) dimension_columns.

(** The three upserts of a row, and no fact. *)
Definition row_upserts (row : Series) (db : DB) : DB :=
  {| countries :=
       <[Country.key (row_country row) := row_country row]> (countries db);
     technologies :=
       <[Technology.key (row_technology row) := row_technology row]>
         (technologies db);
     variables :=
       <[Variable_.key (row_variable row) := row_variable row]> (variables db);
     entries := entries db |}.

(** The three natural keys of a row are not missing. *)
Definition keys_present (row : Series) : bool :=
  negb (isna (Technology.key (row_technology row)))
  && negb (isna (Country.key (row_country row)))
  && negb (isna (Variable_.key (row_variable row))).

(** The row that the export writes for the fact [e]: the technology's name,
    the country's ISO3 and the variable's name for the three objects, the
    fact's seven other fields, and the default token. *)
Definition exported (e e2 : Entry.t) : Prop :=
  exists t c v,
    Entry.technology e = inl t /\ Entry.country e = inl c /\
    Entry.variable e = inl v /\
    e2 = {| Entry.technology := inr (Technology.name t);
            Entry.country := inr (Country.ISO3 c);
            Entry.variable := inr (Variable_.name v);
            Entry.power := Entry.power e;
            Entry.energy := Entry.energy e;
            Entry.source := Entry.source e;
            Entry.notes := Entry.notes e;
            Entry.currency := Entry.currency e;
            Entry.year := Entry.year e;
            Entry.price := Entry.price e;
            Entry._key := uuid4_hex |}.

(** * Lemmas *)

(** ** Strings and rows *)

Lemma endswith_refl (s : string) : endswith s s = true.
Proof. destruct s; simpl; rewrite ?String.eqb_refl, ?Ascii.eqb_refl; reflexivity. Qed.

Lemma endswith_append (s suffix : string) :
  endswith (String.append s suffix) suffix = true.
Proof.
  induction s as [|a s IH]; simpl.
  - apply endswith_refl.
  - rewrite IH. apply orb_true_r.
Qed.

Lemma getitem_cell (row : Series) (label : value) :
  label ∈ row.*1 -> getitem row label = inr (cell row label).
Proof.
  unfold cell. induction row as [|[l c] row IH]; simpl; intros Hin.
  - inversion Hin.
  - destruct (decide (l = label)) as [->|Hne]; [reflexivity|].
    apply elem_of_cons in Hin as [Heq|Hin]; [congruence|].
    specialize (IH Hin). destruct (getitem row label); congruence.
Qed.

Lemma getitem_own_cell (row : Series) (l c : value) :
  NoDup row.*1 -> (l, c) ∈ row -> getitem row l = inr c.
Proof.
  induction row as [|[l' c'] row IH]; simpl; intros Hnd Hin.
  - inversion Hin.
  - apply NoDup_cons in Hnd as [Hnotin Hnd].
    apply elem_of_cons in Hin as [Heq|Hin].
    + inversion Heq; subst. rewrite decide_True by reflexivity. reflexivity.
    + destruct (decide (l' = l)) as [->|Hne]; [|auto].
      exfalso. apply Hnotin. apply list_elem_of_fmap. exists (l, c). auto.
Qed.

Lemma comprehension_int (labels : list value) :
  forallb header_ok labels = true ->
  comprehension int (filter (fun x => is_int_or_float x = true) labels)
  = inr (map year_of (filter (fun x => is_int_or_float x = true) labels)).
Proof.
  induction labels as [|l labels IH]; simpl; intros H; [reflexivity|].
  apply andb_true_iff in H as [Hl H]. specialize (IH H).
  destruct l as [|s|x]; simpl in Hl; try discriminate.
  - rewrite filter_cons_False by (simpl; discriminate). exact IH.
  - rewrite filter_cons_True by reflexivity. simpl. rewrite IH. reflexivity.
Qed.

Lemma filter_fst_fmap (P : value -> Prop) `{forall x, Decision (P x)}
    (row : Series) :
  filter P row.*1 = (filter (fun lc => P lc.1) row).*1.
Proof.
  induction row as [|[l c] row IH]; [reflexivity|].
  rewrite fmap_cons. cbn [fst].
  destruct (decide (P l)) as [Hl|Hl].
  - rewrite filter_cons_True by assumption.
    rewrite (filter_cons_True (fun lc : value * value => P lc.1) (l, c) row Hl).
    rewrite fmap_cons, IH. reflexivity.
  - rewrite filter_cons_False by assumption.
    rewrite (filter_cons_False (fun lc : value * value => P lc.1) (l, c) row Hl).
    exact IH.
Qed.

(** ** The effect of a valid row *)

Lemma for_cons {A} (x : A) (l : list A) (body : A -> M unit) (db : DB) :
  for_ (x :: l) body db
  = match body x db with
    | (inl e, db') => (inl e, db')
    | (inr _, db') => for_ l body db'
    end.
Proof. reflexivity. Qed.

Lemma with_entries_nil (db : DB) : with_entries db [] = db.
Proof. unfold with_entries. rewrite app_nil_r. destruct db; reflexivity. Qed.

Lemma with_entries_app (db : DB) (l1 l2 : list Entry.t) :
  with_entries (with_entries db l1) l2 = with_entries db (l1 ++ l2).
Proof. unfold with_entries. simpl. rewrite <- app_assoc. reflexivity. Qed.

Lemma add_dataframe_year_cell (row : Series) (lc : value * value) (db : DB) :
  is_int_or_float lc.1 = true ->
  getitem row (of_int (year_of lc.1)) = inr lc.2 ->
  Str "Source" ∈ row.*1 -> Str "Notes" ∈ row.*1 ->
  Str "Currency" ∈ row.*1 ->
  add_dataframe_year row (row_technology row) (row_country row)
                     (row_variable row) (year_of lc.1) db
  = (inr tt,
     with_entries db (if populated lc then [row_fact row lc] else [])).
Proof.
  intros Hnum Hget Hs Hn Hc.
  unfold add_dataframe_year, bind, lift. rewrite Hget.
  unfold populated. rewrite Hnum. cbn [andb].
  destruct (isna lc.2); cbn [negb].
  - unfold ret. rewrite with_entries_nil. reflexivity.
  - rewrite (getitem_cell _ _ Hs), (getitem_cell _ _ Hn),
      (getitem_cell _ _ Hc).
    reflexivity.
Qed.

Lemma for_years (row : Series) (ps : list (value * value)) (db : DB) :
  (forall lc, lc ∈ ps ->
     is_int_or_float lc.1 = true /\
     getitem row (of_int (year_of lc.1)) = inr lc.2) ->
  Str "Source" ∈ row.*1 -> Str "Notes" ∈ row.*1 ->
  Str "Currency" ∈ row.*1 ->
  for_ (map (fun lc => year_of lc.1) ps)
       (add_dataframe_year row (row_technology row) (row_country row)
                           (row_variable row)) db
  = (inr tt,
     with_entries db
       (map (row_fact row) (filter (fun lc => populated lc = true) ps))).
Proof.
  intros Hps Hs Hn Hc. revert db.
  induction ps as [|lc ps IH]; intros db.
  - cbn. rewrite with_entries_nil. reflexivity.
  - destruct (Hps lc) as [Hnum Hget]; [left|].
    cbn [map]. rewrite for_cons.
    rewrite (add_dataframe_year_cell _ _ _ Hnum Hget Hs Hn Hc).
    rewrite IH by (intros lc' H; apply Hps; right; exact H).
    rewrite with_entries_app. f_equal. f_equal.
    destruct (populated lc) eqn:Hp.
    + rewrite filter_cons_True by exact Hp. reflexivity.
    + rewrite filter_cons_False by (rewrite Hp; discriminate). reflexivity.
Qed.

Lemma filter_populated (row : Series) :
  filter (fun lc => populated lc = true)
         (filter (fun lc : value * value => is_int_or_float lc.1 = true) row)
  = filter (fun lc => populated lc = true) row.
Proof.
  induction row as [|lc row IH]; [reflexivity|].
  destruct (is_int_or_float lc.1) eqn:Hnum.
  - rewrite (filter_cons_True (fun lc : value * value =>
                                 is_int_or_float lc.1 = true) lc row Hnum).
    destruct (populated lc) eqn:Hp.
    + rewrite !(filter_cons_True (fun lc => populated lc = true)) by exact Hp.
      f_equal. exact IH.
    + rewrite !(filter_cons_False (fun lc => populated lc = true))
        by (rewrite Hp; discriminate).
      exact IH.
  - rewrite (filter_cons_False (fun lc : value * value =>
                                  is_int_or_float lc.1 = true) lc row)
      by (rewrite Hnum; discriminate).
    rewrite (filter_cons_False (fun lc => populated lc = true) lc row);
      [exact IH|].
    unfold populated. rewrite Hnum. discriminate.
Qed.

Ltac in_list := simpl; solve [repeat (first [left; reflexivity | right])].

Lemma valid_columns_required (cols : list value) (c : string) :
  valid_columns cols = true -> In c required_columns -> Str c ∈ cols.
Proof.
  unfold valid_columns. intros H Hin.
  apply andb_true_iff in H as [_ H].
  rewrite forallb_forall in H. specialize (H c Hin).
  apply bool_decide_eq_true in H. exact H.
Qed.

Lemma add_dataframe_row_valid (cols : list value) (row : Series) (db : DB) :
  valid_row cols row = true ->
  add_dataframe_row cols row db = (inr tt, row_effect row db).
Proof.
  unfold valid_row. intros H. apply andb_true_iff in H as [Hcols Hrow].
  apply bool_decide_eq_true in Hrow. subst cols.
  assert (Hreq : forall c, In c required_columns -> Str c ∈ row.*1)
    by (intros c; apply valid_columns_required; exact Hcols).
  unfold valid_columns in Hcols.
  apply andb_true_iff in Hcols as [Hcols _].
  apply andb_true_iff in Hcols as [Hnd Hok].
  apply bool_decide_eq_true in Hnd.
  unfold add_dataframe_row, bind, lift.
  rewrite !getitem_cell by (apply Hreq; in_list).
  unfold add_technology, add_country, add_variable, modify.
  rewrite (comprehension_int _ Hok).
  rewrite filter_fst_fmap.
  change (map year_of (filter (fun lc : value * value =>
                                 is_int_or_float lc.1 = true) row).*1)
    with (map year_of (map fst (filter (fun lc : value * value =>
                                 is_int_or_float lc.1 = true) row))).
  rewrite map_map.
  fold (row_technology row). fold (row_country row). fold (row_variable row).
  rewrite for_years.
  - unfold row_effect, row_facts, with_entries.
    cbn [entries countries technologies variables].
    do 4 f_equal. apply filter_populated.
  - intros [l c] Hin. apply list_elem_of_filter in Hin as [Hnum Hin].
    cbn [fst snd] in *. split; [exact Hnum|].
    assert (Hl : header_ok l = true).
    { rewrite forallb_forall in Hok. apply Hok.
      apply list_elem_of_In, list_elem_of_fmap. exists (l, c). auto. }
    destruct l as [|s|x]; simpl in Hnum, Hl; try discriminate.
    apply bool_decide_eq_true in Hl. rewrite Hl.
    apply getitem_own_cell; assumption.
  - apply Hreq; in_list.
  - apply Hreq; in_list.
  - apply Hreq; in_list.
Qed.

(** ** The effect of a valid frame and of a usable file *)

Lemma fst_combine (cols cells : list value) :
  length cells = length cols -> (combine cols cells).*1 = cols.
Proof.
  revert cells. induction cols as [|l cols IH]; intros [|c cells] Hlen;
    simpl in *; try discriminate; [reflexivity|].
  f_equal. apply IH. lia.
Qed.

Lemma for_rows_valid (cols : list value) (rows : list Series) (db : DB) :
  (forall row, In row rows -> valid_row cols row = true) ->
  for_ rows (add_dataframe_row cols) db
  = (inr tt, foldl (fun db row => row_effect row db) db rows).
Proof.
  revert db. induction rows as [|row rows IH]; intros db Hrows.
  - reflexivity.
  - rewrite for_cons, add_dataframe_row_valid by (apply Hrows; left; reflexivity).
    rewrite IH by (intros r Hr; apply Hrows; right; exact Hr).
    reflexivity.
Qed.

Lemma add_dataframe_valid (df : DataFrame) (db : DB) :
  valid_frame df = true ->
  add_dataframe df db = (inr tt, frame_effect df db).
Proof.
  unfold valid_frame, add_dataframe, frame_effect. intros H.
  apply andb_true_iff in H as [Hcols Hrows].
  apply for_rows_valid. intros row Hin.
  unfold iterrows in Hin. apply in_map_iff in Hin as (cells & <- & Hin).
  rewrite forallb_forall in Hrows. specialize (Hrows cells Hin).
  apply Nat.eqb_eq in Hrows.
  unfold valid_row. rewrite Hcols. cbn [andb].
  apply bool_decide_eq_true. apply fst_combine. exact Hrows.
Qed.

Lemma entries_foldl_row_effect (rows : list Series) (db : DB) :
  entries (foldl (fun db row => row_effect row db) db rows)
  = entries db ++ concat (map row_facts rows).
Proof.
  revert db. induction rows as [|row rows IH]; intros db; simpl.
  - rewrite app_nil_r. reflexivity.
  - rewrite IH. simpl. rewrite <- app_assoc. reflexivity.
Qed.

Lemma entries_frame_effect (df : DataFrame) (db : DB) :
  entries (frame_effect df db) = entries db ++ frame_facts df.
Proof. apply entries_foldl_row_effect. Qed.

Lemma add_file_usable (file_name : string) (db : DB) :
  usable file_name = true ->
  add_file file_name db = (inr tt, file_effect file_name db).
Proof.
  unfold usable, add_file, file_effect, source_frame. intros H.
  apply andb_true_iff in H as [H Hdf].
  apply andb_true_iff in H as [-> Hext].
  unfold bind.
  destruct (endswith file_name ".csv") eqn:Hcsv.
  - unfold lift. destruct (read_csv file_name) as [e|df]; [discriminate|].
    apply add_dataframe_valid. exact Hdf.
  - simpl in Hext. rewrite Hext. unfold lift.
    destruct (read_excel file_name) as [e|df]; [discriminate|].
    apply add_dataframe_valid. exact Hdf.
Qed.

Lemma for_files_usable (files : list string) (db : DB) :
  forallb usable files = true ->
  for_ files add_file db
  = (inr tt, foldl (fun db f => file_effect f db) db files).
Proof.
  revert db. induction files as [|f files IH]; intros db H.
  - reflexivity.
  - simpl in H. apply andb_true_iff in H as [Hf H].
    rewrite for_cons, add_file_usable by exact Hf.
    rewrite IH by exact H. reflexivity.
Qed.

Lemma entries_file_effect (file_name : string) (db : DB) :
  entries (file_effect file_name db) = entries db ++ file_facts file_name.
Proof.
  unfold file_effect, file_facts.
  destruct (source_frame file_name) as [e|df].
  - rewrite app_nil_r. reflexivity.
  - apply entries_frame_effect.
Qed.

Lemma entries_foldl_file_effect (files : list string) (db : DB) :
  entries (foldl (fun db f => file_effect f db) db files)
  = entries db ++ concat (map file_facts files).
Proof.
  revert db. induction files as [|f files IH]; intros db; simpl.
  - rewrite app_nil_r. reflexivity.
  - rewrite IH, entries_file_effect, <- app_assoc. reflexivity.
Qed.

(** ** The program logic *)

Lemma hoare_ret {A} (I P : DB -> Prop) (a : A) (Q : A -> DB -> Prop) :
  (forall db, P db -> Q a db) -> hoare I P (ret a) Q.
Proof. intros H db HP. apply H, HP. Qed.

Lemma hoare_raise {A} (I P : DB -> Prop) (e : exn) (Q : A -> DB -> Prop) :
  (forall db, P db -> I db) -> hoare I P (raise e) Q.
Proof. intros H db HP. apply H, HP. Qed.

Lemma hoare_lift {A} (I P : DB -> Prop) (r : result A) :
  (forall db, P db -> I db) -> hoare I P (lift r) (fun _ => P).
Proof. intros H db HP. unfold lift. destruct r; auto. Qed.

Lemma hoare_bind {A B} (I P : DB -> Prop) (m : M A) (R : A -> DB -> Prop)
    (k : A -> M B) (Q : B -> DB -> Prop) :
  hoare I P m R -> (forall a, hoare I (R a) (k a) Q) ->
  hoare I P (bind m k) Q.
Proof.
  intros Hm Hk db HP. unfold bind. specialize (Hm db HP).
  destruct (m db) as [[e|a] db']; [exact Hm|]. apply Hk, Hm.
Qed.

Lemma hoare_for {A} (I J : DB -> Prop) (l : list A) (body : A -> M unit) :
  (forall x, hoare I J (body x) (fun _ => J)) ->
  hoare I J (for_ l body) (fun _ => J).
Proof.
  intros Hbody. induction l as [|x l IH].
  - apply hoare_ret. auto.
  - simpl. eapply hoare_bind; [apply Hbody|]. intros ?. exact IH.
Qed.

Lemma hoare_state {A} (I : DB -> Prop) (m : M A) (db : DB) :
  hoare I I m (fun _ => I) -> I db -> I (m db).2.
Proof.
  intros H HI. specialize (H db HI).
  destruct (m db) as [[e|a] db']; exact H.
Qed.

(** ** The invariant of the database object *)

Lemma registered_grows (db db' : DB) (e : Entry.t) :
  grows db db' -> registered db e -> registered db' e.
Proof.
  intros (Ht & Hc & Hv) (t & c & v & ? & ? & ? & ? & ? & ?).
  exists t, c, v. repeat split; auto.
Qed.

Lemma keyed_insert {V} (key : V -> value) (d : gmap value V) (x : V) :
  (forall k y, d !! k = Some y -> key y = k) ->
  forall k y, <[key x := x]> d !! k = Some y -> key y = k.
Proof.
  intros Hd k y Hy. apply lookup_insert_Some in Hy as [[Hk Hx]|[_ Hy]].
  - subst y. exact Hk.
  - eapply Hd, Hy.
Qed.

Lemma DB_inv_init : DB_inv DB_init.
Proof.
  split; simpl; try (intros k y Hy; rewrite lookup_empty in Hy; discriminate);
    constructor.
Qed.

Lemma add_technology_inv (t : Technology.t) (db : DB) :
  DB_inv db ->
  DB_inv (add_technology t db).2 /\ grows db (add_technology t db).2 /\
  is_Some (technologies (add_technology t db).2 !! Technology.key t).
Proof.
  intros [Ht Hc Hv He Hk].
  assert (Hg : grows db (add_technology t db).2).
  { repeat split; simpl; auto. intros k Hs.
    apply lookup_insert_is_Some'. right. exact Hs. }
  split; [|split; [exact Hg|]].
  - split; simpl; auto.
    + apply keyed_insert, Ht.
    + eapply Forall_impl; [exact He|]. intros e. apply registered_grows, Hg.
  - simpl. rewrite lookup_insert_eq. eauto.
Qed.

Lemma add_country_inv (c : Country.t) (db : DB) :
  DB_inv db ->
  DB_inv (add_country c db).2 /\ grows db (add_country c db).2 /\
  is_Some (countries (add_country c db).2 !! Country.key c).
Proof.
  intros [Ht Hc Hv He Hk].
  assert (Hg : grows db (add_country c db).2).
  { repeat split; simpl; auto. intros k Hs.
    apply lookup_insert_is_Some'. right. exact Hs. }
  split; [|split; [exact Hg|]].
  - split; simpl; auto.
    + apply keyed_insert, Hc.
    + eapply Forall_impl; [exact He|]. intros e. apply registered_grows, Hg.
  - simpl. rewrite lookup_insert_eq. eauto.
Qed.

Lemma add_variable_inv (v : Variable_.t) (db : DB) :
  DB_inv db ->
  DB_inv (add_variable v db).2 /\ grows db (add_variable v db).2 /\
  is_Some (variables (add_variable v db).2 !! Variable_.key v).
Proof.
  intros [Ht Hc Hv He Hk].
  assert (Hg : grows db (add_variable v db).2).
  { repeat split; simpl; auto. intros k Hs.
    apply lookup_insert_is_Some'. right. exact Hs. }
  split; [|split; [exact Hg|]].
  - split; simpl; auto.
    + apply keyed_insert, Hv.
    + eapply Forall_impl; [exact He|]. intros e. apply registered_grows, Hg.
  - simpl. rewrite lookup_insert_eq. eauto.
Qed.

Lemma add_entry_inv (e : Entry.t) (db : DB) :
  DB_inv db -> registered db e -> Entry._key e = uuid4_hex ->
  DB_inv (add_entry e db).2.
Proof.
  intros [Ht Hc Hv He Hk] Hreg Hkey. split; simpl; auto.
  - apply Forall_app. split; [exact He|]. constructor; [exact Hreg|constructor].
  - apply Forall_app. split; [exact Hk|]. constructor; [exact Hkey|constructor].
Qed.

Lemma hoare_post {A} (I P : DB -> Prop) (m : M A) (Q Q' : A -> DB -> Prop) :
  hoare I P m Q -> (forall a db, Q a db -> Q' a db) -> hoare I P m Q'.
Proof.
  intros Hm HQ db HP. specialize (Hm db HP).
  destruct (m db) as [[e|a] db']; auto.
Qed.

Lemma row_inv_DB_inv t c v db : row_inv t c v db -> DB_inv db.
Proof. intros [H _]. exact H. Qed.

Lemma add_dataframe_year_hoare (row : Series) t c v (year : Z) :
  hoare DB_inv (row_inv t c v) (add_dataframe_year row t c v year)
        (fun _ => row_inv t c v).
Proof.
  unfold add_dataframe_year.
  eapply hoare_bind; [apply hoare_lift, row_inv_DB_inv|]. intros price.
  destruct (negb (isna price)); [|apply hoare_ret; auto].
  eapply hoare_bind; [apply hoare_lift, row_inv_DB_inv|]. intros source.
  eapply hoare_bind; [apply hoare_lift, row_inv_DB_inv|]. intros notes.
  eapply hoare_bind; [apply hoare_lift, row_inv_DB_inv|]. intros currency.
  intros db (Hinv & Ht & Hc & Hv). simpl.
  split; [|auto].
  apply (add_entry_inv _ db Hinv); [|reflexivity].
  exists t, c, v. auto 10.
Qed.

Lemma add_dataframe_row_hoare (cols : list value) (row : Series) :
  hoare DB_inv DB_inv (add_dataframe_row cols row) (fun _ => DB_inv).
Proof.
  unfold add_dataframe_row.
  do 10 (eapply hoare_bind; [apply hoare_lift; auto|]; intros ?).
  set (tech := Technology.Build _ _ _).
  set (country := Country.__init__ _ _ _ _).
  set (var := Variable_.Build _ _ _).
  eapply (hoare_bind _ _ _
            (fun _ db => DB_inv db /\
                         is_Some (technologies db !! Technology.key tech))).
  { intros db H. destruct (add_technology_inv tech db H) as (? & ? & ?).
    split; assumption. }
  intros ?.
  eapply (hoare_bind _ _ _
            (fun _ db => DB_inv db /\
                         is_Some (technologies db !! Technology.key tech) /\
                         is_Some (countries db !! Country.key country))).
  { intros db [H Ht].
    destruct (add_country_inv country db H) as (? & (Hg & _) & ?).
    split; [assumption|]. split; [apply Hg, Ht|assumption]. }
  intros ?.
  eapply (hoare_bind _ _ _ (fun _ => row_inv tech country var)).
  { intros db (H & Ht & Hc).
    destruct (add_variable_inv var db H) as (? & (Hgt & Hgc & _) & ?).
    split; [assumption|]. split; [apply Hgt, Ht|].
    split; [apply Hgc, Hc|assumption]. }
  intros ?.
  eapply hoare_bind; [apply hoare_lift, row_inv_DB_inv|]. intros years.
  eapply hoare_post.
  - apply hoare_for. intros year. apply add_dataframe_year_hoare.
  - intros ? db. apply row_inv_DB_inv.
Qed.

Lemma add_dataframe_hoare (df : DataFrame) :
  hoare DB_inv DB_inv (add_dataframe df) (fun _ => DB_inv).
Proof. apply hoare_for. intros row. apply add_dataframe_row_hoare. Qed.

Lemma add_file_hoare (file_name : string) :
  hoare DB_inv DB_inv (add_file file_name) (fun _ => DB_inv).
Proof.
  unfold add_file. destruct (path_exists file_name).
  - eapply hoare_bind; [|intros df; apply add_dataframe_hoare].
    destruct (endswith file_name ".csv"); [apply hoare_lift; auto|].
    destruct (endswith file_name ".xlsx"); [apply hoare_lift; auto|].
    apply hoare_raise. auto.
  - apply hoare_raise. auto.
Qed.

Lemma ingest_inv (dfs : list DataFrame) : DB_inv (ingest dfs).
Proof.
  unfold ingest. generalize DB_inv_init. generalize DB_init.
  induction dfs as [|df dfs IH]; intros db Hdb; simpl; [exact Hdb|].
  apply IH. apply hoare_state; [apply add_dataframe_hoare|exact Hdb].
Qed.

(** ** The export *)


Lemma entries2_item_rewritten (e e2 : Entry.t) :
  entries2_item e = inr e2 -> rewritten e e2.
Proof.
  unfold entries2_item, rewritten.
  destruct (Entry.technology e) as [t|] eqn:Ht; [|discriminate].
  destruct (Entry.country e) as [c|] eqn:Hc; [|discriminate].
  destruct (Entry.variable e) as [v|] eqn:Hv; [|discriminate].
  intros [= <-]. simpl. split; [|auto 10].
  exists t, c, v. auto 10.
Qed.

Lemma entries2_item_objects (e : Entry.t) :
  has_objects e = true -> exists e2, entries2_item e = inr e2.
Proof.
  unfold has_objects, entries2_item.
  destruct (Entry.technology e); [|discriminate].
  destruct (Entry.country e); [|discriminate].
  destruct (Entry.variable e); [|discriminate].
  eauto.
Qed.

Lemma comprehension_Forall2 {A B} (f : A -> result B) (R : A -> B -> Prop)
    (l : list A) :
  (forall x, In x l -> exists y, f x = inr y) ->
  (forall x y, f x = inr y -> R x y) ->
  exists l2, comprehension f l = inr l2 /\ Forall2 R l l2.
Proof.
  intros Hok HR. induction l as [|x l IH]; simpl.
  - exists []. split; [reflexivity|constructor].
  - destruct (Hok x) as [y Hy]; [left; reflexivity|].
    destruct IH as (l2 & Hl2 & HF); [intros z Hz; apply Hok; right; exact Hz|].
    rewrite Hy, Hl2. exists (y :: l2). split; [reflexivity|].
    constructor; auto.
Qed.

Lemma entries2_item_exported (e e2 : Entry.t) :
  entries2_item e = inr e2 -> exported e e2.
Proof.
  unfold entries2_item, exported.
  destruct (Entry.technology e) as [t|] eqn:Ht; [|discriminate].
  destruct (Entry.country e) as [c|] eqn:Hc; [|discriminate].
  destruct (Entry.variable e) as [v|] eqn:Hv; [|discriminate].
  intros [= <-]. exists t, c, v. auto.
Qed.

Lemma comprehension_returns {A B} (f : A -> result B) (R : A -> B -> Prop)
    (l : list A) (l2 : list B) :
  comprehension f l = inr l2 ->
  (forall x y, f x = inr y -> R x y) ->
  Forall2 R l l2.
Proof.
  intros Hc HR. revert l2 Hc. induction l as [|x l IH]; simpl; intros l2 Hc.
  - injection Hc as <-. constructor.
  - destruct (f x) as [e|y] eqn:Hy; [discriminate|].
    destruct (comprehension f l) as [e|ys]; [discriminate|].
    injection Hc as <-. constructor; auto.
Qed.

Lemma comprehension_raises (l : list Entry.t) (e : exn) :
  comprehension entries2_item l = inl e -> forallb has_objects l = false.
Proof.
  intros Hc. destruct (forallb has_objects l) eqn:Hobj; [|reflexivity].
  rewrite forallb_forall in Hobj.
  destruct (comprehension_Forall2 entries2_item (fun _ _ => True) l)
    as (l2 & Hl2 & _); [|auto|congruence].
  intros x Hx. apply entries2_item_objects, Hobj, Hx.
Qed.

Lemma save_sqlite_run (file_name : string) (db : DB) :
  save_sqlite file_name db
  = match comprehension entries2_item (entries db) with
    | inl e => (inl e, db)
    | inr entries2 =>
        (inr [ connect (destination file_name);
               to_sql "country" (country_df (from_dict (countries db)));
               to_sql "vars" (vars_df (from_dict (variables db)));
               to_sql "tech" (tech_df (from_dict (technologies db)));
               to_sql "entries" (entries_df entries2);
               close ], db)
    end.
Proof.
  unfold save_sqlite, bind, get, lift, ret, destination.
  destruct (comprehension entries2_item (entries db));
    destruct (endswith file_name ".sqlite"); reflexivity.
Qed.

Lemma save_sqlite_objects (file_name : string) (db : DB) :
  forallb has_objects (entries db) = true ->
  exists entries2,
    save_sqlite file_name db
    = (inr [ connect (destination file_name);
             to_sql "country" (country_df (from_dict (countries db)));
             to_sql "vars" (vars_df (from_dict (variables db)));
             to_sql "tech" (tech_df (from_dict (technologies db)));
             to_sql "entries" (entries_df entries2);
             close ], db)
    /\ Forall2 rewritten (entries db) entries2.
Proof.
  intros Hobj. rewrite forallb_forall in Hobj.
  destruct (comprehension_Forall2 entries2_item rewritten (entries db))
    as (entries2 & Hc & HF).
  - intros e He. apply entries2_item_objects, Hobj, He.
  - apply entries2_item_rewritten.
  - exists entries2. split; [|exact HF].
    unfold save_sqlite, bind, get, lift, ret, destination. rewrite Hc.
    destruct (endswith file_name ".sqlite"); reflexivity.
Qed.


Lemma from_dict_elem {V} (d : gmap value V) (k : value) (x : V) :
  d !! k = Some x -> In x (from_dict d).
Proof.
  intros H. unfold from_dict. apply list_elem_of_In, list_elem_of_fmap.
  exists (k, x). split; [reflexivity|]. apply elem_of_map_to_list, H.
Qed.

Lemma for_app {A} (l1 l2 : list A) (body : A -> M unit) (db : DB) :
  for_ (l1 ++ l2) body db
  = match for_ l1 body db with
    | (inl e, db') => (inl e, db')
    | (inr _, db') => for_ l2 body db'
    end.
Proof.
  revert db. induction l1 as [|x l1 IH]; intros db; [reflexivity|].
  rewrite <- app_comm_cons, !for_cons.
  destruct (body x db) as [[e|[]] db']; [reflexivity|]. apply IH.
Qed.

Lemma row_facts_objects (row : Series) :
  forallb has_objects (row_facts row) = true.
Proof.
  unfold row_facts. apply forallb_forall. intros e He.
  apply in_map_iff in He as (lc & <- & _). reflexivity.
Qed.

Lemma forallb_concat {A} (p : A -> bool) (ls : list (list A)) :
  (forall l, In l ls -> forallb p l = true) -> forallb p (concat ls) = true.
Proof.
  induction ls as [|l ls IH]; intros H; simpl; [reflexivity|].
  rewrite forallb_app, H, IH; auto using in_eq, in_cons.
Qed.

Lemma file_facts_objects (file_name : string) :
  forallb has_objects (file_facts file_name) = true.
Proof.
  unfold file_facts. destruct (source_frame file_name) as [e|df]; [reflexivity|].
  unfold frame_facts. apply forallb_concat. intros l Hl.
  apply in_map_iff in Hl as (row & <- & _). apply row_facts_objects.
Qed.

(** * The claims *)

(** C1: a valid row with K populated year cells has exactly K facts
    appended to [entries] (none when every year cell is missing) and each
    of the three dictionaries receives exactly one upsert, whatever K. *)
Theorem add_dataframe_row_facts_and_upserts
    (cols : list value) (row : Series) (db : DB) :
  valid_row cols row = true ->
  exists new,
    add_dataframe_row cols row db
    = (inr tt,
       {| countries :=
            <[Country.key (row_country row) := row_country row]> (countries db);
          technologies :=
            <[Technology.key (row_technology row) := row_technology row]>
              (technologies db);
          variables :=
            <[Variable_.key (row_variable row) := row_variable row]>
              (variables db);
          entries := entries db ++ new |})
    /\ length new = populated_year_cells row
    /\ (populated_year_cells row = 0 -> new = []).
Proof.
  intros Hvalid. exists (row_facts row).
  split; [apply add_dataframe_row_valid, Hvalid|].
  assert (Hlen : length (row_facts row) = populated_year_cells row)
    by apply length_map.
  split; [exact Hlen|].
  intros H0. rewrite H0 in Hlen. apply length_zero_iff_nil, Hlen.
Qed.


(** C3: each of [add_country], [add_technology] and [add_variable] always
    returns and stores the object at its natural key (ISO3, name, name),
    replacing what was there and touching nothing else; so an upsert of
    [a] then of [b] with the same key, a key that is not missing, leaves
    the state of the upsert of [b] alone, and a frame of two rows with one
    technology name leaves one row in the technology table, with the second
    row's category. *)
Theorem upsert_last_write_wins :
  (forall (c : Country.t) (db : DB),
      (add_country c db).1 = inr tt /\
      countries (add_country c db).2 !! Country.ISO3 c = Some c /\
      (forall k, k <> Country.ISO3 c ->
         countries (add_country c db).2 !! k = countries db !! k) /\
      technologies (add_country c db).2 = technologies db /\
      variables (add_country c db).2 = variables db /\
      entries (add_country c db).2 = entries db) /\
  (forall (t : Technology.t) (db : DB),
      (add_technology t db).1 = inr tt /\
      technologies (add_technology t db).2 !! Technology.name t = Some t /\
      (forall k, k <> Technology.name t ->
         technologies (add_technology t db).2 !! k = technologies db !! k) /\
      countries (add_technology t db).2 = countries db /\
      variables (add_technology t db).2 = variables db /\
      entries (add_technology t db).2 = entries db) /\
  (forall (v : Variable_.t) (db : DB),
      (add_variable v db).1 = inr tt /\
      variables (add_variable v db).2 !! Variable_.name v = Some v /\
      (forall k, k <> Variable_.name v ->
         variables (add_variable v db).2 !! k = variables db !! k) /\
      countries (add_variable v db).2 = countries db /\
      technologies (add_variable v db).2 = technologies db /\
      entries (add_variable v db).2 = entries db) /\
  (forall (a b : Country.t) (db : DB),
      Country.key a = Country.key b -> isna (Country.key b) = false ->
      add_country b (add_country a db).2 = add_country b db) /\
  (forall (a b : Technology.t) (db : DB),
      Technology.key a = Technology.key b ->
      isna (Technology.key b) = false ->
      add_technology b (add_technology a db).2 = add_technology b db) /\
  (forall (a b : Variable_.t) (db : DB),
      (Variable_.key a = Variable_.key b) ->
      isna (Variable_.key b) = false ->
      add_variable b (add_variable a db).2 = add_variable b db) /\
  (forall (cols cells1 cells2 : list value),
      let df := {| columns := cols; data := [cells1; cells2] |} in
      let row1 := combine cols cells1 in
      let row2 := combine cols cells2 in
      valid_frame df = true ->
      cell row1 (Str "Technology") = cell row2 (Str "Technology") ->
      isna (cell row2 (Str "Technology")) = false ->
      (add_dataframe df DB_init).1 = inr tt /\
      from_dict (technologies (add_dataframe df DB_init).2)
      = [ Technology.Build (cell row2 (Str "Technology"))
                           (cell row2 (Str "ID"))
                           (cell row2 (Str "Category")) ]).
Proof.
  repeat apply conj.
  - intros c db. simpl. rewrite lookup_insert_eq. repeat split.
    intros k Hk. apply lookup_insert_ne. intros Heq. apply Hk. symmetry. exact Heq.
  - intros t db. simpl. rewrite lookup_insert_eq. repeat split.
    intros k Hk. apply lookup_insert_ne. intros Heq. apply Hk. symmetry. exact Heq.
  - intros v db. simpl. rewrite lookup_insert_eq. repeat split.
    intros k Hk. apply lookup_insert_ne. intros Heq. apply Hk. symmetry. exact Heq.
  - intros a b db Hab _. unfold add_country, modify. simpl.
    rewrite Hab, insert_insert_eq. reflexivity.
  - intros a b db Hab _. unfold add_technology, modify. simpl.
    rewrite Hab, insert_insert_eq. reflexivity.
  - intros a b db Hab _. unfold add_variable, modify. simpl.
    rewrite Hab, insert_insert_eq. reflexivity.
  - intros cols cells1 cells2 df row1 row2 Hvalid Hname _.
    rewrite (add_dataframe_valid df DB_init Hvalid).
    split; [reflexivity|].
    unfold frame_effect, iterrows. simpl.
    fold row1. fold row2. unfold Technology.key. simpl.
    rewrite Hname, insert_insert_eq, insert_empty.
    unfold from_dict. rewrite map_to_list_singleton. reflexivity.
Qed.

(** C4, as the code has it: a missing ISO2 or ISO3 is replaced by the
    country name and a present one is kept, so neither is missing when the
    name itself is present; the constructor is total. *)
Theorem Country_init_iso_fallback (name ISO2 ISO3 continent : value) :
  let c := Country.__init__ name ISO2 ISO3 continent in
  (isna ISO2 = true -> Country.ISO2 c = name) /\
  (isna ISO3 = true -> Country.ISO3 c = name) /\
  (isna ISO2 = false -> Country.ISO2 c = ISO2) /\
  (isna ISO3 = false -> Country.ISO3 c = ISO3) /\
  (isna name = false ->
     isna (Country.ISO2 c) = false /\ isna (Country.ISO3 c) = false) /\
  Country.name c = name /\ Country.continent c = continent.
Proof.
  simpl. repeat apply conj; try reflexivity.
  - intros ->. reflexivity.
  - intros ->. reflexivity.
  - intros ->. reflexivity.
  - intros ->. reflexivity.
  - intros Hname. destruct (isna ISO2) eqn:H2, (isna ISO3) eqn:H3; auto.
Qed.

(** C6: [add_file] raises on a file that does not exist and on one whose
    extension is neither [.csv] nor [.xlsx], and leaves the object as it
    was; the driver does not catch the error, so the run ends with it, in
    the state before the call and without any export. *)
Theorem add_file_fail_fast
    (before after : list string) (file_name out : string) (db0 db : DB) :
  for_ before add_file db0 = (inr tt, db) ->
  path_exists file_name = false \/
  (endswith file_name ".csv" = false /\ endswith file_name ".xlsx" = false) ->
  exists msg,
    add_file file_name db = (inl (Exception msg), db) /\
    (path_exists file_name = false -> msg = "File not exist") /\
    (path_exists file_name = true -> msg = "File type not supported") /\
    convert (before ++ file_name :: after) out db0
    = (inl (Exception msg), db).
Proof.
  intros Hbefore Hbad.
  assert (Hadd : exists msg,
             add_file file_name db = (inl (Exception msg), db) /\
             (path_exists file_name = false -> msg = "File not exist") /\
             (path_exists file_name = true -> msg = "File type not supported")).
  { unfold add_file. destruct (path_exists file_name) eqn:Hex.
    - destruct Hbad as [?|[Hcsv Hxlsx]]; [discriminate|].
      rewrite Hcsv, Hxlsx. exists "File type not supported".
      repeat split; auto; discriminate.
    - exists "File not exist". repeat split; auto; discriminate. }
  destruct Hadd as (msg & Hadd & Hmissing & Hformat).
  exists msg. repeat split; auto.
  unfold convert, bind. rewrite for_app, Hbefore, for_cons, Hadd. reflexivity.
Qed.

(** C7: [add_entry] always returns and puts the fact at the end of
    [entries]; a run over usable files appends the facts of the files in
    file order, each file's in row order and each row's in year-column
    order, and [save_sqlite] writes them, rewritten one by one, in that
    order. *)
Theorem fact_order_fifo (files : list string) (out : string) (db : DB) :
  forallb usable files = true ->
  forallb has_objects (entries db) = true ->
  (forall e db0,
      (add_entry e db0).1 = inr tt /\
      entries (add_entry e db0).2 = entries db0 ++ [e]) /\
  exists db' country vars tech entries2,
    convert files out db
    = (inr [ connect (destination out);
             to_sql "country" (country_df country);
             to_sql "vars" (vars_df vars);
             to_sql "tech" (tech_df tech);
             to_sql "entries" (entries_df entries2);
             close ], db')
    /\ entries db' = entries db ++ concat (map file_facts files)
    /\ Forall2 rewritten (entries db') entries2.
Proof.
  intros Hfiles Hdb. split; [intros e db0; split; reflexivity|].
  set (db' := foldl (fun db f => file_effect f db) db files).
  assert (He : entries db' = entries db ++ concat (map file_facts files))
    by apply entries_foldl_file_effect.
  destruct (save_sqlite_objects out db') as (entries2 & Hsave & HF).
  { rewrite He, forallb_app, Hdb. apply forallb_concat.
    intros l Hl. apply in_map_iff in Hl as (f & <- & _).
    apply file_facts_objects. }
  exists db', (from_dict (countries db')), (from_dict (variables db')),
    (from_dict (technologies db')), entries2.
  split; [|split; [exact He|exact HF]].
  unfold convert, bind. rewrite (for_files_usable files db Hfiles).
  exact Hsave.
Qed.

(** C8: [save_sqlite] creates the artifact under the given name when it
    ends with [.sqlite] and under the name with [.sqlite] appended when it
    does not; it creates none only when it raises on a fact whose
    references are not objects. *)
Theorem save_sqlite_destination (file_name : string) (db : DB) :
  endswith (destination file_name) ".sqlite" = true /\
  destination file_name
  = (if endswith file_name ".sqlite" then file_name
     else String.append file_name ".sqlite") /\
  match (save_sqlite file_name db).1 with
  | inr ios =>
      exists tables,
        ios = connect (destination file_name) :: tables /\
        Forall (fun i => forall f, i <> connect f) tables
  | inl _ => forallb has_objects (entries db) = false
  end.
Proof.
  split.
  { unfold destination.
    destruct (endswith file_name ".sqlite") eqn:Hext;
      auto using endswith_append. }
  split; [reflexivity|].
  rewrite save_sqlite_run.
  destruct (comprehension entries2_item (entries db)) as [e|entries2] eqn:Hc;
    simpl.
  - eapply comprehension_raises, Hc.
  - eexists. split; [reflexivity|]. repeat constructor; discriminate.
Qed.

(** C9, as the code has it: [save_sqlite] writes, for each fact in turn, a
    row with the technology's name, the country's ISO3 and the variable's
    name in place of the three objects, with the fact's power, energy,
    source, notes, currency, year and price, and with the default token,
    which is the token of every fact that [add_dataframe] built; the
    object, [entries] included, is left as it was, also when the export
    raises, which it does before any storage call only on a fact whose
    references are not objects. *)
Theorem save_sqlite_rewrites_references_and_key
    (file_name : string) (db : DB) :
  (save_sqlite file_name db).2 = db /\
  match (save_sqlite file_name db).1 with
  | inr ios =>
      exists before entries2,
        ios = before ++ [to_sql "entries" (entries_df entries2); close] /\
        Forall2 exported (entries db) entries2
  | inl _ => forallb has_objects (entries db) = false
  end /\
  (forall dfs,
      Forall (fun e => forall e2, exported e e2 -> Entry._key e2 = Entry._key e)
             (entries (ingest dfs))).
Proof.
  rewrite save_sqlite_run.
  split; [destruct (comprehension entries2_item (entries db)); reflexivity|].
  split.
  - destruct (comprehension entries2_item (entries db)) as [e|entries2] eqn:Hc;
      simpl.
    + eapply comprehension_raises, Hc.
    + exists [ connect (destination file_name);
               to_sql "country" (country_df (from_dict (countries db)));
               to_sql "vars" (vars_df (from_dict (variables db)));
               to_sql "tech" (tech_df (from_dict (technologies db))) ],
        entries2.
      split; [reflexivity|].
      eapply comprehension_returns; [exact Hc|]. apply entries2_item_exported.
  - intros dfs. eapply Forall_impl; [apply (inv_keys _ (ingest_inv dfs))|].
    intros e He e2 (t & c & v & _ & _ & _ & ->). symmetry. exact He.
Qed.

(** C10: [add_file] looks for the file before it looks at the extension:
    on a path that does not exist it raises the missing-file error whatever
    the extension, and the unsupported-format error only comes from a path
    that exists. *)
Theorem add_file_existence_first (file_name : string) (db : DB) :
  path_exists file_name = false ->
  add_file file_name db = (inl (Exception "File not exist"), db) /\
  (forall f db0,
      (add_file f db0).1 = inl (Exception "File type not supported") ->
      path_exists f = true).
Proof.
  intros Hex. split.
  - unfold add_file. rewrite Hex. reflexivity.
  - intros f db0. unfold add_file.
    destruct (path_exists f); [reflexivity|]. discriminate.
Qed.

(** C5: the token of a fact is the default of the field [_key], which is
    [uuid4().hex] evaluated once, when the class is created: every fact that
    [add_dataframe] builds carries that one token, and the two facts of a
    row with two prices are different facts with the same token. *)
Theorem Entry_key_shared :
  (forall dfs,
      Forall (fun e => Entry.key e = uuid4_hex) (entries (ingest dfs))) /\
  exists e1 e2,
    entries (add_dataframe two_prices DB_init).2 = [e1; e2] /\
    e1 <> e2 /\
    Entry.key e1 = Entry.key e2.
Proof.
  split; [intros dfs; apply (inv_keys _ (ingest_inv dfs))|].
  eexists. eexists. split; [vm_compute; reflexivity|].
  split; [|reflexivity].
  intros H. apply (f_equal Entry.year) in H. discriminate.
Qed.

(** * Further properties of the methods *)

(** ** What every run of [add_dataframe] keeps *)

Lemma add_dataframe_year_preserves (I : DB -> Prop) (row : Series)
    (t : Technology.t) (c : Country.t) (v : Variable_.t) (year : Z) :
  (forall e db, fact_ok e -> I db -> I (add_entry e db).2) ->
  hoare I I (add_dataframe_year row t c v year) (fun _ => I).
Proof.
  intros Hentry. unfold add_dataframe_year.
  eapply hoare_bind; [apply hoare_lift; auto|]. intros price.
  destruct (isna price) eqn:Hna; cbn [negb]; [apply hoare_ret; auto|].
  do 3 (eapply hoare_bind; [apply hoare_lift; auto|]; intros ?).
  intros db HI. refine (Hentry _ db _ HI).
  repeat split. exact Hna.
Qed.

Lemma add_dataframe_row_preserves (I : DB -> Prop) (cols : list value)
    (row : Series) :
  (forall t db, I db -> I (add_technology t db).2) ->
  (forall c db, I db -> I (add_country c db).2) ->
  (forall v db, I db -> I (add_variable v db).2) ->
  (forall e db, fact_ok e -> I db -> I (add_entry e db).2) ->
  hoare I I (add_dataframe_row cols row) (fun _ => I).
Proof.
  intros Ht Hc Hv He. unfold add_dataframe_row.
  do 10 (eapply hoare_bind; [apply hoare_lift; auto|]; intros ?).
  eapply (hoare_bind _ _ _ (fun _ => I)); [intros db HI; exact (Ht _ db HI)|].
  intros ?.
  eapply (hoare_bind _ _ _ (fun _ => I)); [intros db HI; exact (Hc _ db HI)|].
  intros ?.
  eapply (hoare_bind _ _ _ (fun _ => I)); [intros db HI; exact (Hv _ db HI)|].
  intros ?.
  eapply hoare_bind; [apply hoare_lift; auto|]. intros years.
  apply hoare_for. intros year. apply add_dataframe_year_preserves, He.
Qed.

Lemma add_dataframe_preserves (I : DB -> Prop) (df : DataFrame) :
  (forall t db, I db -> I (add_technology t db).2) ->
  (forall c db, I db -> I (add_country c db).2) ->
  (forall v db, I db -> I (add_variable v db).2) ->
  (forall e db, fact_ok e -> I db -> I (add_entry e db).2) ->
  hoare I I (add_dataframe df) (fun _ => I).
Proof.
  intros Ht Hc Hv He. apply hoare_for. intros row.
  apply add_dataframe_row_preserves; assumption.
Qed.

Lemma add_file_preserves (I : DB -> Prop) (file_name : string) :
  (forall t db, I db -> I (add_technology t db).2) ->
  (forall c db, I db -> I (add_country c db).2) ->
  (forall v db, I db -> I (add_variable v db).2) ->
  (forall e db, fact_ok e -> I db -> I (add_entry e db).2) ->
  hoare I I (add_file file_name) (fun _ => I).
Proof.
  intros Ht Hc Hv He. unfold add_file. destruct (path_exists file_name).
  - eapply hoare_bind;
      [|intros df; apply add_dataframe_preserves; assumption].
    destruct (endswith file_name ".csv"); [apply hoare_lift; auto|].
    destruct (endswith file_name ".xlsx"); [apply hoare_lift; auto|].
    apply hoare_raise. auto.
  - apply hoare_raise. auto.
Qed.

Lemma grows_refl (db : DB) : grows db db.
Proof. repeat split; auto. Qed.

Lemma extends_refl (db : DB) : extends db db.
Proof.
  split; [exists []; rewrite app_nil_r; reflexivity|apply grows_refl].
Qed.

Lemma extends_insert (db0 db db' : DB) :
  extends db0 db -> entries db' = entries db -> grows db db' ->
  extends db0 db'.
Proof.
  intros [[new Hnew] (Ht & Hc & Hv)] He (Ht' & Hc' & Hv').
  split; [exists new; congruence|]. repeat split; auto.
Qed.

Lemma grows_insert_technologies (t : Technology.t) (db : DB) :
  grows db (add_technology t db).2.
Proof.
  repeat split; simpl; auto. intros k Hs.
  apply lookup_insert_is_Some'. right. exact Hs.
Qed.

Lemma grows_insert_countries (c : Country.t) (db : DB) :
  grows db (add_country c db).2.
Proof.
  repeat split; simpl; auto. intros k Hs.
  apply lookup_insert_is_Some'. right. exact Hs.
Qed.

Lemma grows_insert_variables (v : Variable_.t) (db : DB) :
  grows db (add_variable v db).2.
Proof.
  repeat split; simpl; auto. intros k Hs.
  apply lookup_insert_is_Some'. right. exact Hs.
Qed.

Lemma extends_add_entry (db0 db : DB) (e : Entry.t) :
  extends db0 db -> extends db0 (add_entry e db).2.
Proof.
  intros [[new Hnew] Hg]. split; [|exact Hg].
  exists (new ++ [e]). simpl. rewrite Hnew, <- app_assoc. reflexivity.
Qed.

(** X1: [add_file], and so [add_dataframe], is append-only whether it
    returns or raises: the facts that were in [entries] stay, in place and
    in order, in front of those it adds, and no key leaves a dictionary. *)
Theorem add_file_append_only (file_name : string) (db : DB) :
  (exists new, entries (add_file file_name db).2 = entries db ++ new) /\
  grows db (add_file file_name db).2 /\
  forall df,
    (exists new, entries (add_dataframe df db).2 = entries db ++ new) /\
    grows db (add_dataframe df db).2.
Proof.
  assert (Ht : forall t d, extends db d -> extends db (add_technology t d).2)
    by (intros t d H; eapply extends_insert;
        [exact H|reflexivity|apply grows_insert_technologies]).
  assert (Hc : forall c d, extends db d -> extends db (add_country c d).2)
    by (intros c d H; eapply extends_insert;
        [exact H|reflexivity|apply grows_insert_countries]).
  assert (Hv : forall v d, extends db d -> extends db (add_variable v d).2)
    by (intros v d H; eapply extends_insert;
        [exact H|reflexivity|apply grows_insert_variables]).
  assert (He : forall e d, fact_ok e -> extends db d ->
                           extends db (add_entry e d).2)
    by (intros e d _; apply extends_add_entry).
  assert (Hfile : extends db (add_file file_name db).2).
  { apply (hoare_state (extends db)); [|apply extends_refl].
    apply add_file_preserves; assumption. }
  split; [apply Hfile|]. split; [apply Hfile|].
  intros df. apply (hoare_state (extends db) (add_dataframe df));
    [|apply extends_refl].
  apply add_dataframe_preserves; assumption.
Qed.

(** X2: after any sequence of [add_dataframe] calls on a new [DB], every
    fact has power 0, energy 0, a price that is not missing, object
    references and the default token. *)
Theorem ingest_facts_ok (dfs : list DataFrame) :
  Forall fact_ok (entries (ingest dfs)).
Proof.
  unfold ingest.
  assert (H0 : Forall fact_ok (entries DB_init)) by constructor.
  revert H0. generalize DB_init.
  induction dfs as [|df dfs IH]; intros db Hdb; simpl; [exact Hdb|].
  apply IH.
  apply (hoare_state (fun d => Forall fact_ok (entries d)) (add_dataframe df));
    [|exact Hdb].
  apply add_dataframe_preserves; simpl; auto.
  intros e d He Hd. apply Forall_app. split; [exact Hd|].
  constructor; [exact He|constructor].
Qed.

(** ** Frames that [add_dataframe] takes no fact from, or rejects *)

Lemma hoare_lift_result {A} (I P : DB -> Prop) (r : result A) :
  (forall db, P db -> I db) ->
  hoare I P (lift r) (fun a db => P db /\ r = inr a).
Proof. intros H db HP. unfold lift. destruct r; auto. Qed.

Lemma hoare_pure {A} (I P : DB -> Prop) (phi : Prop) (m : M A)
    (Q : A -> DB -> Prop) :
  (phi -> hoare I P m Q) -> hoare I (fun db => P db /\ phi) m Q.
Proof. intros H db [HP Hphi]. apply H; assumption. Qed.

Lemma filter_no_numbers (cols : list value) :
  forallb (fun l => negb (is_int_or_float l)) cols = true ->
  filter (fun x => is_int_or_float x = true) cols = [].
Proof.
  induction cols as [|l cols IH]; simpl; intros H; [reflexivity|].
  apply andb_true_iff in H as [Hl H].
  rewrite filter_cons_False; [apply IH, H|].
  destruct (is_int_or_float l); [discriminate Hl|discriminate].
Qed.

(** X3: from a frame whose headers are all strings, as the CSV reader
    yields them, [add_dataframe] takes no fact, whatever the cells hold and
    whether it returns or raises. *)
Theorem add_dataframe_string_headers (df : DataFrame) (db : DB) :
  forallb (fun l => negb (is_int_or_float l)) (columns df) = true ->
  entries (add_dataframe df db).2 = entries db.
Proof.
  intros Hcols. apply filter_no_numbers in Hcols.
  set (I := fun d : DB => entries d = entries db).
  apply (hoare_state I (add_dataframe df)); [|reflexivity].
  apply hoare_for. intros row. unfold add_dataframe_row. rewrite Hcols.
  do 10 (eapply hoare_bind; [apply hoare_lift; auto|]; intros ?).
  do 3 (eapply (hoare_bind _ _ _ (fun _ => I)); [intros d Hd; exact Hd|];
        intros ?).
  eapply hoare_bind; [apply hoare_lift_result; auto|]. intros years.
  apply hoare_pure. intros [= <-]. apply hoare_ret. auto.
Qed.

Lemma getitem_absent (row : Series) (label : value) :
  label ∉ row.*1 -> getitem row label = inl (KeyError label).
Proof.
  induction row as [|[l c] row IH]; simpl; intros Hnot; [reflexivity|].
  destruct (decide (l = label)) as [->|Hne].
  - exfalso. apply Hnot. left.
  - apply IH. intros Hin. apply Hnot. right. exact Hin.
Qed.

Ltac read_column row :=
  match goal with
  | |- context [getitem row (Str ?c)] =>
      destruct (bool_decide (Str c ∈ row.*1)) eqn:?;
      [ rewrite (getitem_cell row (Str c))
          by (eapply bool_decide_eq_true_1; eassumption)
      | rewrite (getitem_absent row (Str c))
          by (eapply bool_decide_eq_false_1; eassumption) ]
  end.

(** X4: a row without one of the ten dimension columns makes the loop body
    raise [KeyError] for the first such column in reading order, before
    anything is stored: the object is left as it was. *)
Theorem add_dataframe_row_missing_dimension
    (cols : list value) (row : Series) (db : DB) (c : string) :
  find (fun c => negb (bool_decide (Str c ∈ row.*1))) dimension_columns
  = Some c ->
  add_dataframe_row cols row db = (inl (KeyError (Str c)), db).
Proof.
  unfold dimension_columns, add_dataframe_row, bind, lift. cbn [find].
  do 10 (read_column row; cbn [negb];
         [|intros [= <-]; reflexivity]).
  discriminate.
Qed.

Lemma find_missing_dimension (row : Series) (c : string) :
  In c dimension_columns -> Str c ∉ row.*1 ->
  exists c', In c' dimension_columns /\
    find (fun c => negb (bool_decide (Str c ∈ row.*1))) dimension_columns
    = Some c'.
Proof.
  intros Hin Hnot.
  destruct (find (fun c => negb (bool_decide (Str c ∈ row.*1)))
                 dimension_columns) as [c'|] eqn:Hfind.
  - exists c'. split; [|reflexivity]. eapply find_some, Hfind.
  - exfalso. eapply find_none in Hfind; [|exact Hin].
    apply negb_false_iff, bool_decide_eq_true in Hfind. contradiction.
Qed.

Lemma fst_combine_subseteq (cols cells : list value) (l : value) :
  l ∈ (combine cols cells).*1 -> l ∈ cols.
Proof.
  revert cells. induction cols as [|x cols IH]; intros [|c cells]; simpl;
    try (intros H; inversion H; fail).
  intros H. apply elem_of_cons in H as [->|H]; [left|right; eauto].
Qed.

(** X5: a frame without one of the ten dimension columns is rejected as a
    whole: with at least one row [add_dataframe] raises [KeyError] for a
    dimension column on the first row and the object is left as it was. *)
Theorem add_dataframe_missing_dimension
    (df : DataFrame) (db : DB) (c : string) :
  In c dimension_columns -> Str c ∉ columns df -> data df <> [] ->
  exists c', In c' dimension_columns /\
    add_dataframe df db = (inl (KeyError (Str c')), db).
Proof.
  intros Hin Hnot Hrows. unfold add_dataframe, iterrows.
  destruct (data df) as [|cells rows]; [contradiction|]. cbn [map].
  destruct (find_missing_dimension (combine (columns df) cells) c Hin)
    as (c' & Hin' & Hfind).
  { intros H. apply Hnot. eapply fst_combine_subseteq, H. }
  exists c'. split; [exact Hin'|].
  rewrite for_cons, (add_dataframe_row_missing_dimension _ _ _ _ Hfind).
  reflexivity.
Qed.

(** ** A row with a price and no Source column *)

Lemma for_years_no_source (row : Series) (t : Technology.t) (c : Country.t)
    (v : Variable_.t) (ps : list (value * value)) (db : DB) :
  (forall lc, lc ∈ ps ->
     is_int_or_float lc.1 = true /\
     getitem row (of_int (year_of lc.1)) = inr lc.2) ->
  Str "Source" ∉ row.*1 ->
  for_ (map (fun lc => year_of lc.1) ps) (add_dataframe_year row t c v) db
  = (if existsb populated ps then inl (KeyError (Str "Source")) else inr tt,
     db).
Proof.
  intros Hps Hs. induction ps as [|lc ps IH]; [reflexivity|].
  destruct (Hps lc) as [Hnum Hget]; [left|].
  cbn [map existsb]. rewrite for_cons.
  unfold add_dataframe_year at 1, bind, lift. rewrite Hget.
  unfold populated at 1. rewrite Hnum. cbn [andb].
  destruct (isna lc.2); cbn [negb orb].
  - unfold ret. apply IH. intros lc' H. apply Hps. right. exact H.
  - rewrite (getitem_absent _ _ Hs). reflexivity.
Qed.

(** X6: a row with its ten dimension columns and a price, in a frame that
    has no Source column, makes the loop body raise [KeyError] for Source
    after the three upserts of the row are done: they stay, and no fact is
    added. *)
Theorem add_dataframe_row_missing_source
    (cols : list value) (row : Series) (db : DB) :
  row.*1 = cols ->
  bool_decide (NoDup cols) && forallb header_ok cols
  && dimensions_present cols = true ->
  Str "Source" ∉ cols ->
  populated_year_cells row <> 0 ->
  add_dataframe_row cols row db
  = (inl (KeyError (Str "Source")), row_upserts row db).
Proof.
  intros <- H Hs Hpop.
  apply andb_true_iff in H as [H Hdims].
  apply andb_true_iff in H as [Hnd Hok].
  apply bool_decide_eq_true in Hnd.
  assert (Hreq : forall c, In c dimension_columns -> Str c ∈ row.*1).
  { intros c Hc. unfold dimensions_present in Hdims.
    rewrite forallb_forall in Hdims.
    eapply bool_decide_eq_true_1, Hdims, Hc. }
  unfold add_dataframe_row, bind, lift.
  rewrite !getitem_cell by (apply Hreq; in_list).
  unfold add_technology, add_country, add_variable, modify.
  rewrite (comprehension_int _ Hok), filter_fst_fmap.
  change (map year_of (filter (fun lc : value * value =>
                                 is_int_or_float lc.1 = true) row).*1)
    with (map year_of (map fst (filter (fun lc : value * value =>
                                 is_int_or_float lc.1 = true) row))).
  rewrite map_map, for_years_no_source; [|
    intros [l c] Hin; apply list_elem_of_filter in Hin as [Hnum Hin];
    cbn [fst snd] in *; split; [exact Hnum|] | exact Hs].
  - replace (existsb populated _) with true; [reflexivity|].
    symmetry. apply existsb_exists.
    unfold populated_year_cells in Hpop.
    destruct (filter (fun lc => populated lc = true) row) as [|lc rest] eqn:Hf;
      [contradiction|].
    assert (Hlc : lc ∈ filter (fun lc => populated lc = true) row)
      by (rewrite Hf; left).
    apply list_elem_of_filter in Hlc as [Hp Hlc].
    exists lc. split; [|exact Hp].
    apply list_elem_of_In, list_elem_of_filter. split; [|exact Hlc].
    unfold populated in Hp. apply andb_true_iff in Hp as [Hp _]. exact Hp.
  - assert (Hl : header_ok l = true).
    { rewrite forallb_forall in Hok. apply Hok.
      apply list_elem_of_In, list_elem_of_fmap. exists (l, c). auto. }
    destruct l as [|s|x]; simpl in Hnum, Hl; try discriminate.
    apply bool_decide_eq_true in Hl. rewrite Hl.
    apply getitem_own_cell; assumption.
Qed.

(** ** The dictionaries after a valid frame *)

Lemma upserts_snoc {V} (key : V -> value) (xs : list V) (x : V)
    (m : gmap value V) :
  upserts key (xs ++ [x]) m = <[key x := x]> (upserts key xs m).
Proof. unfold upserts. rewrite foldl_snoc. reflexivity. Qed.

Lemma upserts_lookup {V} (key : V -> value) (xs : list V) (m : gmap value V)
    (k : value) :
  upserts key xs m !! k
  = match last (filter (fun x => key x = k) xs) with
    | Some x => Some x
    | None => m !! k
    end.
Proof.
  induction xs as [|x xs IH] using rev_ind; [reflexivity|].
  rewrite upserts_snoc, filter_app.
  destruct (decide (key x = k)) as [Hk|Hk].
  - rewrite (filter_cons_True (fun x => key x = k) x [] Hk).
    rewrite last_app. cbn. rewrite <- Hk. apply lookup_insert_eq.
  - rewrite (filter_cons_False (fun x => key x = k) x [] Hk).
    rewrite app_nil_r, lookup_insert_ne by exact Hk. exact IH.
Qed.

Lemma upserts_twice {V} (key : V -> value) (xs : list V) (m : gmap value V) :
  upserts key xs (upserts key xs m) = upserts key xs m.
Proof.
  apply map_eq. intros k. rewrite upserts_lookup.
  destruct (last (filter (fun x => key x = k) xs)) as [x|] eqn:Hlast;
    [|reflexivity].
  rewrite upserts_lookup, Hlast. reflexivity.
Qed.

Lemma foldl_row_effect_dictionaries (rows : list Series) (db : DB) :
  technologies (foldl (fun db row => row_effect row db) db rows)
  = upserts Technology.key (map row_technology rows) (technologies db) /\
  countries (foldl (fun db row => row_effect row db) db rows)
  = upserts Country.key (map row_country rows) (countries db) /\
  variables (foldl (fun db row => row_effect row db) db rows)
  = upserts Variable_.key (map row_variable rows) (variables db).
Proof.
  revert db. induction rows as [|row rows IH]; intros db; [auto|].
  cbn [foldl map]. destruct (IH (row_effect row db)) as (Ht & Hc & Hv).
  rewrite Ht, Hc, Hv. auto.
Qed.

Lemma frame_effect_dictionaries (df : DataFrame) (db : DB) :
  technologies (frame_effect df db)
  = upserts Technology.key (map row_technology (iterrows df))
            (technologies db) /\
  countries (frame_effect df db)
  = upserts Country.key (map row_country (iterrows df)) (countries db) /\
  variables (frame_effect df db)
  = upserts Variable_.key (map row_variable (iterrows df)) (variables db).
Proof. apply foldl_row_effect_dictionaries. Qed.

(** X7: after [add_dataframe] on a valid frame each dictionary holds, at
    every key that is not missing, the object of the last row of the frame
    with that key, and what it held before when no row has the key. *)
Theorem add_dataframe_last_row_wins (df : DataFrame) (db : DB) (k : value) :
  valid_frame df = true ->
  isna k = false ->
  technologies (add_dataframe df db).2 !! k
  = match last (filter (fun t => Technology.key t = k)
                       (map row_technology (iterrows df))) with
    | Some t => Some t
    | None => technologies db !! k
    end /\
  countries (add_dataframe df db).2 !! k
  = match last (filter (fun c => Country.key c = k)
                       (map row_country (iterrows df))) with
    | Some c => Some c
    | None => countries db !! k
    end /\
  variables (add_dataframe df db).2 !! k
  = match last (filter (fun v => Variable_.key v = k)
                       (map row_variable (iterrows df))) with
    | Some v => Some v
    | None => variables db !! k
    end.
Proof.
  intros Hvalid _. rewrite (add_dataframe_valid df db Hvalid). cbn [snd].
  destruct (frame_effect_dictionaries df db) as (Ht & Hc & Hv).
  rewrite Ht, Hc, Hv, !upserts_lookup. auto.
Qed.

(** X8: adding a second time a valid frame whose rows have no missing
    natural key leaves the three dictionaries as the first time left them
    and appends the facts of the frame once more: facts are not
    deduplicated. *)
Theorem add_dataframe_again (df : DataFrame) (db : DB) :
  valid_frame df = true ->
  forallb keys_present (iterrows df) = true ->
  let db1 := (add_dataframe df db).2 in
  let db2 := (add_dataframe df db1).2 in
  (add_dataframe df db1).1 = inr tt /\
  countries db2 = countries db1 /\
  technologies db2 = technologies db1 /\
  variables db2 = variables db1 /\
  entries db2 = entries db ++ frame_facts df ++ frame_facts df.
Proof.
  intros Hvalid _ db1 db2. subst db1 db2.
  rewrite !(add_dataframe_valid df _ Hvalid). cbn [fst snd].
  destruct (frame_effect_dictionaries df (frame_effect df db))
    as (Ht & Hc & Hv).
  destruct (frame_effect_dictionaries df db) as (Ht' & Hc' & Hv').
  rewrite Ht, Hc, Hv, Ht', Hc', Hv', !upserts_twice.
  repeat split.
  rewrite !entries_frame_effect, <- app_assoc. reflexivity.
Qed.

(** X9: a frame added in two parts, its first rows and then its other rows
    under the same headers, leaves what the frame added in one call leaves,
    result and object alike. *)
Theorem add_dataframe_split (cols : list value) (rows1 rows2 : list (list value))
    (db : DB) :
  add_dataframe {| columns := cols; data := rows1 ++ rows2 |} db
  = (add_dataframe {| columns := cols; data := rows1 |} >>
     add_dataframe {| columns := cols; data := rows2 |}) db.
Proof.
  unfold add_dataframe, iterrows, bind. cbn [columns data].
  rewrite map_app, for_app.
  destruct (for_ _ _ db) as [[e|[]] db']; reflexivity.
Qed.

(** X10: [add_dataframe] on a valid frame adds as many facts as the frame
    has year cells with a price. *)
Theorem add_dataframe_fact_count (df : DataFrame) (db : DB) :
  valid_frame df = true ->
  length (entries (add_dataframe df db).2)
  = length (entries db)
    + list_sum (map populated_year_cells (iterrows df)).
Proof.
  intros Hvalid. rewrite (add_dataframe_valid df db Hvalid). cbn [snd].
  rewrite entries_frame_effect, length_app. f_equal.
  unfold frame_facts. rewrite length_concat, map_map. f_equal.
  apply map_ext. intros row. apply length_map.
Qed.

(** ** The tables and the failures of the export *)

Lemma keyed_from_dict {V} (key : V -> value) (d : gmap value V) :
  (forall k y, d !! k = Some y -> key y = k) ->
  map key (from_dict d) = (map_to_list d).*1.
Proof.
  intros Hd. unfold from_dict.
  change (map key (map snd (map_to_list d)) = map fst (map_to_list d)).
  rewrite map_map. apply map_ext_in. intros [k y] Hin. cbn.
  apply Hd, elem_of_map_to_list, list_elem_of_In, Hin.
Qed.

Lemma from_dict_In {V} (d : gmap value V) (x : V) :
  In x (from_dict d) <-> exists k, d !! k = Some x.
Proof.
  split.
  - intros H. unfold from_dict in H.
    apply list_elem_of_In, list_elem_of_fmap in H as ([k y] & -> & H).
    exists k. apply elem_of_map_to_list, H.
  - intros [k H]. eapply from_dict_elem, H.
Qed.

(** X11: when [save_sqlite], after any sequence of [add_dataframe] calls on
    a new [DB], gets to its storage calls, each dimension table it hands
    over holds, among the objects with a natural key that is not missing,
    exactly those of its dictionary, and no two of its rows have the same
    such key. *)
Theorem export_keys_unique (dfs : list DataFrame) (file_name : string)
    (ios : list io) :
  (save_sqlite file_name (ingest dfs)).1 = inr ios ->
  exists country vars tech entries2,
    ios = [ connect (destination file_name);
            to_sql "country" (country_df country);
            to_sql "vars" (vars_df vars);
            to_sql "tech" (tech_df tech);
            to_sql "entries" (entries_df entries2);
            close ] /\
    NoDup (filter (fun k => isna k = false) (map Country.key country)) /\
    NoDup (filter (fun k => isna k = false) (map Variable_.key vars)) /\
    NoDup (filter (fun k => isna k = false) (map Technology.key tech)) /\
    (forall c, isna (Country.ISO3 c) = false ->
       In c country <-> countries (ingest dfs) !! Country.ISO3 c = Some c) /\
    (forall v, isna (Variable_.name v) = false ->
       In v vars <-> variables (ingest dfs) !! Variable_.name v = Some v) /\
    (forall t, isna (Technology.name t) = false ->
       In t tech <-> technologies (ingest dfs) !! Technology.name t = Some t).
Proof.
  pose proof (ingest_inv dfs) as Hinv. set (db := ingest dfs) in *.
  rewrite save_sqlite_run.
  destruct (comprehension entries2_item (entries db)) as [e|entries2];
    [discriminate|].
  cbn [fst]. intros [= <-].
  exists (from_dict (countries db)), (from_dict (variables db)),
    (from_dict (technologies db)), entries2.
  split; [reflexivity|].
  rewrite (keyed_from_dict Country.key _ (inv_countries db Hinv)).
  rewrite (keyed_from_dict Variable_.key _ (inv_variables db Hinv)).
  rewrite (keyed_from_dict Technology.key _ (inv_technologies db Hinv)).
  do 3 (split; [apply NoDup_filter, NoDup_fst_map_to_list|]).
  repeat split; intros Hin.
  - apply from_dict_In in Hin as [k Hk].
    rewrite (inv_countries db Hinv _ _ Hk) at 1. exact Hk.
  - apply from_dict_In. eauto.
  - apply from_dict_In in Hin as [k Hk].
    rewrite (inv_variables db Hinv _ _ Hk) at 1. exact Hk.
  - apply from_dict_In. eauto.
  - apply from_dict_In in Hin as [k Hk].
    rewrite (inv_technologies db Hinv _ _ Hk) at 1. exact Hk.
  - apply from_dict_In. eauto.
Qed.

Lemma comprehension_entries2_error (l : list Entry.t) (e : exn) :
  comprehension entries2_item l = inl e -> e = AttributeError "key".
Proof.
  induction l as [|x l IH]; simpl; [discriminate|].
  destruct (entries2_item x) as [e'|y] eqn:Hx.
  - intros [= <-]. unfold entries2_item in Hx.
    destruct (Entry.technology x); [|congruence].
    destruct (Entry.country x); [|congruence].
    destruct (Entry.variable x); [|congruence]. discriminate.
  - destruct (comprehension entries2_item l); [|discriminate].
    intros [= <-]. apply IH. reflexivity.
Qed.

Lemma rewritten_no_objects (e e2 : Entry.t) :
  rewritten e e2 -> has_objects e2 = false.
Proof.
  intros ((t & c & v & _ & _ & _ & Ht & _) & _). unfold has_objects.
  rewrite Ht. reflexivity.
Qed.

Lemma save_sqlite_entries_table (file_name : string) (db : DB)
    (ios : list io) (entries2 : list Entry.t) :
  (save_sqlite file_name db).1 = inr ios ->
  In (to_sql "entries" (entries_df entries2)) ios ->
  comprehension entries2_item (entries db) = inr entries2.
Proof.
  rewrite save_sqlite_run.
  destruct (comprehension entries2_item (entries db)) as [e|l2] eqn:Hc;
    [discriminate|].
  cbn. intros [= <-] Hin.
  repeat (destruct Hin as [Hin|Hin]; [try discriminate Hin|]);
    [injection Hin as <-; reflexivity|contradiction].
Qed.

(** X12: when a fact of [entries] holds a key where [save_sqlite] expects an
    object, [save_sqlite] raises [AttributeError] before any storage call
    and leaves the object as it was; the facts that an export wrote are such
    facts, so an object holding them cannot be exported. *)
Theorem save_sqlite_needs_objects (file_name : string) (db : DB) :
  (forallb has_objects (entries db) = false ->
   save_sqlite file_name db = (inl (AttributeError "key"), db)) /\
  (forall ios entries2,
      (save_sqlite file_name db).1 = inr ios ->
      In (to_sql "entries" (entries_df entries2)) ios ->
      entries2 <> [] ->
      forall g d, entries d = entries2 ->
        save_sqlite g d = (inl (AttributeError "key"), d)).
Proof.
  assert (Hfail : forall g d, forallb has_objects (entries d) = false ->
                    save_sqlite g d = (inl (AttributeError "key"), d)).
  { intros g d Hobj. rewrite save_sqlite_run.
    destruct (comprehension entries2_item (entries d)) as [e|l2] eqn:Hc.
    - rewrite (comprehension_entries2_error _ _ Hc). reflexivity.
    - assert (Hall : forallb has_objects (entries d) = true).
      { apply forallb_forall. intros x Hx.
        pose proof (comprehension_returns _ (fun x y => entries2_item x = inr y)
                      _ _ Hc (fun _ _ H => H)) as HF.
        apply list_elem_of_In in Hx.
        destruct (proj1 (list_elem_of_lookup _ _) Hx) as [i Hi].
        destruct (Forall2_lookup_l _ _ _ _ _ HF Hi) as (y & _ & Hy).
        unfold entries2_item in Hy. unfold has_objects.
        destruct (Entry.technology x); [|discriminate].
        destruct (Entry.country x); [|discriminate].
        destruct (Entry.variable x); [|discriminate]. reflexivity. }
      congruence. }
  split; [apply Hfail|].
  intros ios entries2 Hrun Hin Hne g d Hd. apply Hfail.
  pose proof (save_sqlite_entries_table _ _ _ _ Hrun Hin) as Hc.
  pose proof (comprehension_returns _ rewritten _ _ Hc entries2_item_rewritten)
    as HF.
  rewrite Hd. destruct HF as [|x y l l' Hxy _]; [contradiction|].
  cbn. rewrite (rewritten_no_objects _ _ Hxy). reflexivity.
Qed.

(** X13: the destination name is settled in one step: [save_sqlite] under
    the name it would create the artifact under does what it does under the
    given name. *)
Theorem save_sqlite_destination_idempotent (file_name : string) (db : DB) :
  save_sqlite (destination file_name) db = save_sqlite file_name db.
Proof.
  rewrite !save_sqlite_run.
  assert (Hd : destination (destination file_name) = destination file_name).
  { unfold destination at 1.
    replace (endswith (destination file_name) ".sqlite") with true;
      [reflexivity|].
    symmetry. unfold destination.
    destruct (endswith file_name ".sqlite") eqn:Hext;
      auto using endswith_append. }
  rewrite Hd. reflexivity.
Qed.

(** X14: the export does not carry the token of a fact over: every row of
    the [entries] table it writes has the default token, whatever [_key]
    the fact in [entries] has. *)
Theorem save_sqlite_default_key (file_name : string) (db : DB)
    (ios : list io) (entries2 : list Entry.t) :
  (save_sqlite file_name db).1 = inr ios ->
  In (to_sql "entries" (entries_df entries2)) ios ->
  length entries2 = length (entries db) /\
  Forall (fun e2 => Entry.key e2 = uuid4_hex) entries2.
Proof.
  intros Hrun Hin.
  pose proof (save_sqlite_entries_table _ _ _ _ Hrun Hin) as Hc.
  pose proof (comprehension_returns _
                (fun x y => Entry.key y = uuid4_hex) _ _ Hc) as HF.
  assert (HF' : Forall2 (fun (_ : Entry.t) y => Entry.key y = uuid4_hex)
                        (entries db) entries2).
  { apply HF. intros x y Hy. unfold entries2_item in Hy.
    destruct (Entry.technology x); [|discriminate].
    destruct (Entry.country x); [|discriminate].
    destruct (Entry.variable x); [|discriminate].
    injection Hy as <-. reflexivity. }
  split; [symmetry; eapply Forall2_length, HF'|].
  clear -HF'. induction HF'; constructor; auto.
Qed.

(** ** Countries and years *)

(** X15: building a country again from the fields of a built country gives
    the same country: the ISO fallback settles in one step. *)
Theorem Country_init_idempotent (name ISO2 ISO3 continent : value) :
  let c := Country.__init__ name ISO2 ISO3 continent in
  Country.__init__ (Country.name c) (Country.ISO2 c) (Country.ISO3 c)
                   (Country.continent c) = c.
Proof.
  unfold Country.__init__. cbn.
  destruct ISO2, ISO3, name; reflexivity.
Qed.

Lemma year_of_of_int (n : Z) : year_of (of_int n) = n.
Proof.
  unfold year_of, of_int, int, Q2Qc. cbn [this].
  rewrite Qred_identity by (cbn; apply Z.gcd_1_r).
  cbn. apply Z.quot_1_r.
Qed.

(** X16: on a valid row, every year cell that holds a price, under the
    header [n], gives a fact of year [n] with that price, the row's Source,
    Notes and Currency cells and the row's three objects; and every fact
    the row adds comes from such a cell. *)
Theorem add_dataframe_row_facts (cols : list value) (row : Series) (db : DB) :
  valid_row cols row = true ->
  exists new,
    entries (add_dataframe_row cols row db).2 = entries db ++ new /\
    (forall n c, (of_int n, c) ∈ row -> isna c = false ->
       Entry_init (inl (row_technology row)) (inl (row_country row))
                  (inl (row_variable row)) 0%Qc 0%Qc
                  (cell row (Str "Source")) (cell row (Str "Notes"))
                  (cell row (Str "Currency")) n c ∈ new) /\
    (forall e, e ∈ new ->
       exists n c, (of_int n, c) ∈ row /\ isna c = false /\
         Entry.year e = n /\ Entry.price e = c).
Proof.
  intros Hvalid. exists (row_facts row).
  rewrite (add_dataframe_row_valid cols row db Hvalid).
  split; [reflexivity|]. unfold row_facts. split.
  - intros n c Hin Hna. apply list_elem_of_fmap. exists (of_int n, c).
    split; [unfold row_fact; cbn [fst snd]; rewrite year_of_of_int; reflexivity|].
    apply list_elem_of_filter. split; [|exact Hin].
    unfold populated. cbn. rewrite Hna. reflexivity.
  - intros e He. apply list_elem_of_fmap in He as ([l c] & -> & Hlc).
    apply list_elem_of_filter in Hlc as [Hp Hin].
    unfold populated in Hp. cbn [fst snd] in Hp.
    apply andb_true_iff in Hp as [Hnum Hna]. apply negb_true_iff in Hna.
    assert (Hl : header_ok l = true).
    { unfold valid_row, valid_columns in Hvalid.
      apply andb_true_iff in Hvalid as [Hcols Hrow].
      apply bool_decide_eq_true in Hrow. subst cols.
      apply andb_true_iff in Hcols as [Hcols _].
      apply andb_true_iff in Hcols as [_ Hok].
      rewrite forallb_forall in Hok. apply Hok.
      apply list_elem_of_In, list_elem_of_fmap. exists (l, c). auto. }
    destruct l as [|s|x]; simpl in Hnum, Hl; try discriminate.
    apply bool_decide_eq_true in Hl.
    exists (year_of (Num x)), c. rewrite Hl. auto.
Qed.

(** ** The driver *)

Lemma add_file_returns (file_name : string) (db : DB) :
  (add_file file_name db).1 = inr tt ->
  path_exists file_name = true /\
  endswith file_name ".csv" || endswith file_name ".xlsx" = true /\
  exists df, source_frame file_name = inr df.
Proof.
  unfold add_file, source_frame, bind, lift, raise.
  destruct (path_exists file_name); [|discriminate].
  destruct (endswith file_name ".csv").
  - destruct (read_csv file_name) as [e|df]; [discriminate|]. eauto.
  - destruct (endswith file_name ".xlsx"); [|discriminate].
    destruct (read_excel file_name) as [e|df]; [discriminate|]. eauto.
Qed.

(** X17: the driver exports only after every file was taken in: when the
    run returns, every file of the list exists, has one of the two
    extensions and was read into a frame, and the storage calls start with
    the creation of the artifact. *)
Theorem convert_returns (files : list string) (out : string) (db : DB)
    (ios : list io) :
  (convert files out db).1 = inr ios ->
  Forall (fun f =>
            path_exists f = true /\
            endswith f ".csv" || endswith f ".xlsx" = true /\
            exists df, source_frame f = inr df) files /\
  exists tables, ios = connect (destination out) :: tables.
Proof.
  unfold convert, bind. revert db.
  induction files as [|f files IH]; intros db.
  - cbn [for_ ret]. intros Hrun. split; [constructor|].
    rewrite save_sqlite_run in Hrun.
    destruct (comprehension entries2_item (entries db)); [discriminate|].
    injection Hrun as <-. eauto.
  - rewrite for_cons.
    destruct (add_file f db) as [[e|[]] db1] eqn:Hf; [discriminate|].
    intros Hrun. destruct (IH db1 Hrun) as [Hall Hios].
    split; [|exact Hios]. constructor; [|exact Hall].
    apply (add_file_returns f db). rewrite Hf. reflexivity.
Qed.

End Converter.

(** * Instances *)

(** The first scenario of the specification: Testland without ISO codes, a
    price of 5 for 2020 and none for 2021. *)
Example scenario_testland (k : string) :
  entries (add_dataframe k testland DB_init).2
  = [ {| Entry.technology :=
           inl (Technology.Build (Str "Solar") (Str "S1") (Str "Renewable"));
         Entry.country :=
           inl (Country.Build (Str "Testland") (Str "Testland")
                              (Str "Testland") (Str "Europe"));
         Entry.variable :=
           inl (Variable_.Build (Str "CAPEX") (Str "CX") (Str "USD/kW"));
         Entry.power := 0%Qc;
         Entry.energy := 0%Qc;
         Entry.source := Str "IEA";
         Entry.notes := NaN;
         Entry.currency := Str "USD";
         Entry.year := 2020;
         Entry.price := Num (Q2Qc (5 # 1));
         Entry._key := k |} ].
Proof. vm_compute. reflexivity. Qed.


(** C4: the country of a row whose Country, ISO2 and ISO3 cells are all
    blank has a missing ISO2 and a missing ISO3. *)
Lemma Country_init_missing_name :
  ~ (isna (Country.ISO2 (Country.__init__ NaN NaN NaN (Str "Europe"))) = false /\
     isna (Country.ISO3 (Country.__init__ NaN NaN NaN (Str "Europe"))) = false).
Proof. simpl. intros [H _]. discriminate. Qed.

Lemma Country_init_iso_fallback_witness :
  isna NaN = true /\ isna (Str "Testland") = false /\
  Country.__init__ (Str "Testland") NaN NaN (Str "Europe")
  = Country.Build (Str "Testland") (Str "Testland") (Str "Testland")
                  (Str "Europe").
Proof.
  split; [reflexivity|]. split; [reflexivity|].
  destruct (Country_init_iso_fallback (Str "Testland") NaN NaN (Str "Europe"))
    as (H2 & H3 & _ & _ & _ & Hn & Hc).
  specialize (H2 eq_refl). specialize (H3 eq_refl).
  destruct (Country.__init__ (Str "Testland") NaN NaN (Str "Europe")).
  simpl in *. subst. reflexivity.
Defined.

Lemma add_dataframe_row_facts_and_upserts_witness :
  valid_row sample_columns (combine sample_columns testland_cells) = true /\
  exists db',
    add_dataframe_row "k" sample_columns
                      (combine sample_columns testland_cells) DB_init
    = (inr tt, db') /\
    length (entries db') = 1.
Proof.
  split; [vm_compute; reflexivity|].
  destruct (add_dataframe_row_facts_and_upserts "k" sample_columns
              (combine sample_columns testland_cells) DB_init)
    as (new & Hrun & Hlen & _); [vm_compute; reflexivity|].
  eexists. split; [exact Hrun|]. simpl. exact Hlen.
Defined.

Lemma upsert_last_write_wins_witness :
  valid_frame {| columns := sample_columns;
                 data := [testland_cells; recategorised_cells] |} = true /\
  from_dict (technologies
               (add_dataframe "k"
                  {| columns := sample_columns;
                     data := [testland_cells; recategorised_cells] |}
                  DB_init).2)
  = [Technology.Build (Str "Solar") (Str "S2") (Str "Clean")].
Proof.
  split; [vm_compute; reflexivity|].
  destruct (upsert_last_write_wins "k") as (_ & _ & _ & _ & _ & _ & H).
  destruct (H sample_columns testland_cells recategorised_cells) as [_ Hd];
    [vm_compute; reflexivity|vm_compute; reflexivity|reflexivity|].
  exact Hd.
Defined.

Lemma add_file_fail_fast_witness :
  no_path "GNESTE_Battery_Storage.xlsx" = false /\
  main "k" no_path reads_testland reads_testland DB_init
  = (inl (Exception "File not exist"), DB_init).
Proof.
  split; [reflexivity|].
  destruct (add_file_fail_fast "k" no_path reads_testland reads_testland
              [] (tail files) "GNESTE_Battery_Storage.xlsx"
              "GNESTE.sqlite" DB_init DB_init)
    as (msg & _ & Hmsg & _ & Hrun); [reflexivity|left; reflexivity|].
  rewrite (Hmsg eq_refl) in Hrun. exact Hrun.
Defined.

Lemma fact_order_fifo_witness :
  forallb (usable every_path reads_testland reads_testland)
          ["a.xlsx"; "b.xlsx"] = true /\
  exists db' ios,
    convert "k" every_path reads_testland reads_testland
            ["a.xlsx"; "b.xlsx"] "GNESTE" DB_init
    = (inr ios, db') /\
    entries db'
    = file_facts "k" reads_testland reads_testland "a.xlsx"
      ++ file_facts "k" reads_testland reads_testland "b.xlsx".
Proof.
  split; [vm_compute; reflexivity|].
  destruct (fact_order_fifo "k" every_path reads_testland reads_testland
              ["a.xlsx"; "b.xlsx"] "GNESTE" DB_init)
    as (_ & db' & country & vars & tech & entries2 & Hrun & He & _);
    [vm_compute; reflexivity|reflexivity|].
  exists db'. eexists. split; [exact Hrun|].
  rewrite He. vm_compute. reflexivity.
Defined.

Lemma save_sqlite_destination_witness :
  destination "GNESTE" = "GNESTE.sqlite" /\
  exists tables,
    (save_sqlite "k" "GNESTE" DB_init).1
    = inr (connect "GNESTE.sqlite" :: tables).
Proof.
  destruct (save_sqlite_destination "k" "GNESTE" DB_init) as (_ & Hd & Hrun).
  split; [exact Hd|].
  destruct (save_sqlite "k" "GNESTE" DB_init).1 as [e|ios].
  - discriminate Hrun.
  - destruct Hrun as (tables & -> & _). exists tables. reflexivity.
Defined.

(** C9: a fact with a token of its own, added after the Testland frame, is
    written with another token. *)
Lemma save_sqlite_resets_key :
  exists before e1 e2,
    (save_sqlite "k" "GNESTE.sqlite"
       (add_entry custom_fact (add_dataframe "k" testland DB_init).2).2).1
    = inr (before ++ [to_sql "entries" (entries_df [e1; e2]); close]) /\
    last (entries (add_entry custom_fact
                     (add_dataframe "k" testland DB_init).2).2)
    = Some custom_fact /\
    Entry._key e2 <> Entry._key custom_fact /\
    Entry.price e2 = Entry.price custom_fact.
Proof.
  eexists [_; _; _; _]. eexists. eexists.
  split; [vm_compute; reflexivity|].
  split; [vm_compute; reflexivity|].
  split; [discriminate|reflexivity].
Qed.

Lemma save_sqlite_rewrites_references_and_key_witness :
  (save_sqlite "k" "GNESTE.sqlite" (add_dataframe "k" testland DB_init).2).2
  = (add_dataframe "k" testland DB_init).2.
Proof.
  apply (save_sqlite_rewrites_references_and_key "k" "GNESTE.sqlite").
Defined.

Lemma add_file_existence_first_witness :
  no_path "data.json" = false /\
  add_file "k" no_path reads_testland reads_testland "data.json" DB_init
  = (inl (Exception "File not exist"), DB_init).
Proof.
  split; [reflexivity|].
  apply (add_file_existence_first "k" no_path reads_testland reads_testland).
  reflexivity.
Defined.

(** ** Instances of the further properties *)

(** The Testland file read as CSV leaves no fact. *)
Lemma add_dataframe_string_headers_witness :
  forallb (fun l => negb (is_int_or_float l)) (columns testland_csv) = true /\
  entries (add_dataframe "k" testland_csv DB_init).2 = [].
Proof.
  split; [reflexivity|].
  apply (add_dataframe_string_headers "k" testland_csv DB_init). reflexivity.
Defined.

(** The Testland row without Unit: the first column not found is Unit. *)
Lemma add_dataframe_row_missing_dimension_witness :
  add_dataframe_row "k" (columns testland_no_unit)
    (combine (columns testland_no_unit)
       [ Str "Solar"; Str "S1"; Str "Renewable"; Str "Testland"; NaN; NaN;
         Str "Europe"; Str "CAPEX"; Str "CX"; Str "IEA"; NaN; Str "USD";
         Num (Q2Qc (5 # 1)); NaN ]) DB_init
  = (inl (KeyError (Str "Unit")), DB_init).
Proof.
  apply (add_dataframe_row_missing_dimension "k"). vm_compute. reflexivity.
Defined.

Lemma add_dataframe_missing_dimension_witness :
  In "Unit" dimension_columns /\
  exists c, add_dataframe "k" testland_no_unit DB_init
            = (inl (KeyError (Str c)), DB_init).
Proof.
  assert (Hin : In "Unit" dimension_columns)
    by (simpl; repeat (first [left; reflexivity | right])).
  split; [exact Hin|].
  destruct (add_dataframe_missing_dimension "k" testland_no_unit DB_init
              "Unit" Hin) as (c & _ & Hrun).
  - intros H. apply (bool_decide_eq_true_2 _) in H.
    vm_compute in H. discriminate.
  - discriminate.
  - exists c. exact Hrun.
Defined.

(** The Testland row without Source: the upserts are done, no fact is
    added. *)
Lemma add_dataframe_row_missing_source_witness :
  exists db',
    add_dataframe "k" testland_no_source DB_init
    = (inl (KeyError (Str "Source")), db') /\
    entries db' = [] /\
    is_Some (technologies db' !! Str "Solar").
Proof.
  eexists. split; [|split].
  - unfold add_dataframe, iterrows. cbn [data testland_no_source map].
    rewrite for_cons.
    rewrite (add_dataframe_row_missing_source "k");
      [reflexivity|reflexivity|vm_compute; reflexivity| |].
    + intros H. apply (bool_decide_eq_true_2 _) in H.
      vm_compute in H. discriminate.
    + intros H. vm_compute in H. discriminate.
  - reflexivity.
  - cbn. rewrite lookup_insert_eq. eauto.
Defined.

(** Two rows for Solar: the dictionary holds the second. *)
Lemma add_dataframe_last_row_wins_witness :
  technologies
    (add_dataframe "k"
       {| columns := sample_columns;
          data := [testland_cells; recategorised_cells] |} DB_init).2
  !! Str "Solar"
  = Some (Technology.Build (Str "Solar") (Str "S2") (Str "Clean")).
Proof.
  destruct (add_dataframe_last_row_wins "k"
              {| columns := sample_columns;
                 data := [testland_cells; recategorised_cells] |}
              DB_init (Str "Solar")) as (Ht & _);
    [vm_compute; reflexivity|reflexivity|].
  rewrite Ht. vm_compute. reflexivity.
Defined.

(** The Testland frame added twice: two facts. *)
Lemma add_dataframe_again_witness :
  valid_frame testland = true /\
  forallb keys_present (iterrows testland) = true /\
  length (entries (add_dataframe "k" testland
                     (add_dataframe "k" testland DB_init).2).2) = 2.
Proof.
  split; [vm_compute; reflexivity|]. split; [vm_compute; reflexivity|].
  destruct (add_dataframe_again "k" testland DB_init)
    as (_ & _ & _ & _ & He); [vm_compute; reflexivity|vm_compute; reflexivity|].
  rewrite He. vm_compute. reflexivity.
Defined.

Lemma add_dataframe_fact_count_witness :
  valid_frame two_prices = true /\
  length (entries (add_dataframe "k" two_prices DB_init).2) = 2.
Proof.
  split; [vm_compute; reflexivity|].
  rewrite (add_dataframe_fact_count "k" two_prices DB_init)
    by (vm_compute; reflexivity).
  vm_compute. reflexivity.
Defined.

(** A fact with a token of its own is written with the default token, and
    what was written cannot be exported. *)
Lemma save_sqlite_default_key_witness :
  exists e2,
    (save_sqlite "k" "GNESTE" (add_entry custom_fact DB_init).2).1
    = inr [ connect "GNESTE.sqlite";
            to_sql "country" (country_df []);
            to_sql "vars" (vars_df []);
            to_sql "tech" (tech_df []);
            to_sql "entries" (entries_df [e2]);
            close ] /\
    Entry.key custom_fact = "custom" /\ Entry.key e2 = "k".
Proof.
  eexists. split; [vm_compute; reflexivity|]. split; [reflexivity|].
  match goal with
  | |- Entry.key ?e = _ =>
      destruct (save_sqlite_default_key "k" "GNESTE"
                  (add_entry custom_fact DB_init).2
                  [ connect "GNESTE.sqlite";
                    to_sql "country" (country_df []);
                    to_sql "vars" (vars_df []);
                    to_sql "tech" (tech_df []);
                    to_sql "entries" (entries_df [e]);
                    close ] [e]) as [_ Hk]
  end.
  - vm_compute. reflexivity.
  - right. right. right. right. left. reflexivity.
  - inversion Hk as [|? ? Hhead _]. exact Hhead.
Defined.

Lemma save_sqlite_needs_objects_witness :
  exists e2,
    (save_sqlite "k" "GNESTE" (add_entry custom_fact DB_init).2).1
    = inr [ connect "GNESTE.sqlite";
            to_sql "country" (country_df []);
            to_sql "vars" (vars_df []);
            to_sql "tech" (tech_df []);
            to_sql "entries" (entries_df [e2]);
            close ] /\
    save_sqlite "k" "GNESTE" (add_entry e2 DB_init).2
    = (inl (AttributeError "key"), (add_entry e2 DB_init).2).
Proof.
  eexists. split; [vm_compute; reflexivity|].
  destruct (save_sqlite_needs_objects "k" "GNESTE"
              (add_entry custom_fact DB_init).2) as [_ H].
  match goal with
  | |- save_sqlite _ _ (add_entry ?e DB_init).2 = _ =>
      apply (H [ connect "GNESTE.sqlite";
                 to_sql "country" (country_df []);
                 to_sql "vars" (vars_df []);
                 to_sql "tech" (tech_df []);
                 to_sql "entries" (entries_df [e]);
                 close ] [e])
  end.
  - vm_compute. reflexivity.
  - right. right. right. right. left. reflexivity.
  - discriminate.
  - reflexivity.
Defined.

(** The priced 2020 cell of the Testland row gives the fact of 2020. *)
Lemma add_dataframe_row_facts_witness :
  valid_row sample_columns (combine sample_columns testland_cells) = true /\
  exists e,
    In e (entries (add_dataframe_row "k" sample_columns
                     (combine sample_columns testland_cells) DB_init).2) /\
    Entry.year e = 2020%Z /\ Entry.price e = Num (Q2Qc (5 # 1)).
Proof.
  split; [vm_compute; reflexivity|].
  destruct (add_dataframe_row_facts "k" sample_columns
              (combine sample_columns testland_cells) DB_init)
    as (new & He & Hcell & _); [vm_compute; reflexivity|].
  eexists. split.
  - rewrite He. apply list_elem_of_In, (Hcell 2020%Z (Num (Q2Qc (5 # 1)))).
    + vm_compute. do 13 right. left.
    + reflexivity.
  - split; reflexivity.
Defined.

(** A run that returns was given files that exist. *)
Lemma convert_returns_witness :
  exists ios,
    (convert "k" every_path reads_testland reads_testland
             ["a.xlsx"] "GNESTE" DB_init).1 = inr ios /\
    every_path "a.xlsx" = true.
Proof.
  eexists. split; [vm_compute; reflexivity|].
  destruct (convert_returns "k" every_path reads_testland reads_testland
              ["a.xlsx"] "GNESTE" DB_init _ eq_refl) as [Hall _].
  inversion Hall as [|? ? (Hex & _) _]. exact Hex.
Defined.

(** The country table written after the Testland frame. *)
Lemma export_keys_unique_witness :
  exists ios country,
    (save_sqlite "k" "GNESTE.sqlite" (ingest "k" [testland])).1 = inr ios /\
    In (to_sql "country" (country_df country)) ios /\
    NoDup (filter (fun k => isna k = false) (map Country.key country)).
Proof.
  destruct (save_sqlite "k" "GNESTE.sqlite" (ingest "k" [testland])).1
    as [e|ios] eqn:Hrun; [vm_compute in Hrun; discriminate|].
  destruct (export_keys_unique "k" [testland] "GNESTE.sqlite" ios Hrun)
    as (country & vars & tech & entries2 & -> & Hnd & _).
  eexists. exists country. split; [reflexivity|].
  split; [right; left; reflexivity|exact Hnd].
Defined.
